(** * Vehicle-management API: a shallow embedding and its verified properties

    The development follows the layout of the repository:
    - [models] : the two tables of [app/models.py];
    - [schemas]: the request and response shapes of [app/schemas.py];
    - the storage engine and the ORM session the code talks to, as a small
      state-and-exception monad;
    - the data-access functions of [app/crud.py];
    - the route handlers of [app/main.py] and the HTTP layer around them;
    - the operator CLI of [manage_users.py].

    Python [str] values are modelled by [string], one [ascii] per character;
    Python [int] values by [Z]. *)

From Stdlib Require Import List String ZArith Lia Bool DecimalString.
Import ListNotations.
Local Open Scope string_scope.
Local Open Scope Z_scope.
Local Open Scope list_scope.

(** ** Tables ([app/models.py]) *)

Module models.

Module Veiculo.
Record t : Type := Build
  { id : Z; marca : string; modelo : string; ano : Z;
    placa : string; status : string }.

(** [veiculo.status = status] on a loaded row. *)
Definition set_status (s : string) (v : t) : t :=
  Build (id v) (marca v) (modelo v) (ano v) (placa v) s.

Definition eq_dec (a b : t) : {a = b} + {a <> b}.
Proof.
  decide equality; try apply string_dec; apply Z.eq_dec.
Defined.
End Veiculo.

Module Usuario.
Record t : Type := Build
  { id : Z; username : string; hashed_password : string }.
End Usuario.

End models.

(** The closed vocabulary of the [status] column, as the code spells it. *)
Definition status_vocabulary : list string := ["CONNECTADO"; "DESCONECTADO"].

(** [v in ["CONNECTADO", "DESCONECTADO"]] *)
Definition status_ok (s : string) : bool :=
  existsb (String.eqb s) status_vocabulary.

(** ** Persistent state

    The database holds the two tables, in insertion order.  The tables exist
    once [Base.metadata.create_all] has run, which the web application does in
    its [lifespan] hook and the CLI never does. *)

Record DB : Type := mkDB
  { tables_created : bool;
    veiculos : list models.Veiculo.t;
    usuarios : list models.Usuario.t }.

(** ** Exceptions *)

Inductive engine_fault : Type :=
| NoSuchTable (table : string)
| UniqueViolation (column : string)
| CheckViolation (name : string).

Inductive exn : Type :=
| IntegrityError (f : engine_fault)
| OperationalError (f : engine_fault)
| InvalidRequestError
| ValueError (msg : string)
| HTTPException (status_code : Z) (detail : string)
                (headers : list (string * string)).

(** ** The ORM session

    A session holds the committed [store], the unit of work not yet flushed
    ([pending]), the primary key the engine gave to the last inserted row, the
    statements sent to the engine so far ([log]) and, for the CLI, what was
    printed. *)

Inductive change : Type :=
| AddVeiculo (marca modelo : string) (ano : Z) (placa status : string)
| AddUsuario (username hashed_password : string)
| SetStatus (id : Z) (status : string)
| DelVeiculo (id : Z)
| DelUsuario (id : Z).

Inductive stmt : Type :=
| SELECT (table : string)
| INSERT (table : string)
| UPDATE (table : string)
| DELETE (table : string)
| COMMIT
| ROLLBACK.

Record State : Type := mkState
  { store : DB;
    pending : list change;
    lastrowid : option Z;
    log : list stmt;
    stdout : list string }.

(** [SessionLocal()]: a fresh session on the database; nothing is sent to the
    engine until the first statement. *)
Definition open_session (db : DB) : State := mkState db [] None [] [].

(** [db.close()]: the unit of work is dropped. *)
Definition close (s : State) : State :=
  mkState (store s) [] (lastrowid s) (log s) (stdout s).

(** ** The monad of handlers: state plus Python exceptions *)

Inductive Result (A : Type) : Type :=
| Ok (a : A)
| Raise (e : exn).
Arguments Ok {A} a.
Arguments Raise {A} e.

Definition M (A : Type) : Type := State -> Result A * State.

Definition ret {A} (a : A) : M A := fun s => (Ok a, s).

Definition raise {A} (e : exn) : M A := fun s => (Raise e, s).

Definition bind {A B} (m : M A) (k : A -> M B) : M B :=
  fun s =>
    match m s with
    | (Ok a, s') => k a s'
    | (Raise e, s') => (Raise e, s')
    end.

Notation "x <- m ;; k" := (bind m (fun x => k))
  (at level 61, m at next level, right associativity).
Notation "m ;;; k" := (bind m (fun _ => k))
  (at level 61, right associativity).

(** [try: body except IntegrityError: handler] *)
Definition try_except_IntegrityError {A} (body handler : M A) : M A :=
  fun s =>
    match body s with
    | (Raise (IntegrityError _), s') => handler s'
    | other => other
    end.

(** [print(line)] *)
Definition print (line : string) : M unit :=
  fun s =>
    (Ok tt, mkState (store s) (pending s) (lastrowid s) (log s)
                    (stdout s ++ [line])).

(** ** The storage engine *)

Definition table_of (q : stmt) : string :=
  match q with
  | SELECT t | INSERT t | UPDATE t | DELETE t => t
  | COMMIT | ROLLBACK => ""
  end.

(** Sending one statement: it is recorded, and it fails when its table does
    not exist. *)
Definition execute (q : stmt) : M DB :=
  fun s =>
    let s' := mkState (store s) (pending s) (lastrowid s) (log s ++ [q])
                      (stdout s) in
    if tables_created (store s) then (Ok (store s), s')
    else (Raise (OperationalError (NoSuchTable (table_of q))), s').

(** [INTEGER PRIMARY KEY]: the engine assigns one more than the largest key
    in the table. *)
Definition next_id (ids : list Z) : Z := 1 + fold_right Z.max 0 ids.

Definition stmt_of (c : change) : stmt :=
  match c with
  | AddVeiculo _ _ _ _ _ => INSERT "veiculos"
  | AddUsuario _ _ => INSERT "usuarios"
  | SetStatus _ _ => UPDATE "veiculos"
  | DelVeiculo _ => DELETE "veiculos"
  | DelUsuario _ => DELETE "usuarios"
  end.

(** One flushed change against the tables, with the constraints of
    [models.py]: [placa] and [username] are unique, and [check_status]
    restricts [status] to the vocabulary. *)
Definition apply_change (c : change) (db : DB)
  : engine_fault + (DB * option Z) :=
  if negb (tables_created db) then inl (NoSuchTable (table_of (stmt_of c)))
  else
    match c with
    | AddVeiculo ma mo an pl st =>
        if negb (status_ok st) then inl (CheckViolation "check_status")
        else if existsb (fun v => models.Veiculo.placa v =? pl)%string
                        (veiculos db)
        then inl (UniqueViolation "veiculos.placa")
        else
          let k := next_id (map models.Veiculo.id (veiculos db)) in
          inr (mkDB (tables_created db)
                    (veiculos db ++ [models.Veiculo.Build k ma mo an pl st])
                    (usuarios db), Some k)
    | AddUsuario un hp =>
        if existsb (fun u => models.Usuario.username u =? un)%string
                   (usuarios db)
        then inl (UniqueViolation "usuarios.username")
        else
          let k := next_id (map models.Usuario.id (usuarios db)) in
          inr (mkDB (tables_created db) (veiculos db)
                    (usuarios db ++ [models.Usuario.Build k un hp]), Some k)
    | SetStatus k st =>
        if negb (status_ok st) then inl (CheckViolation "check_status")
        else
          inr (mkDB (tables_created db)
                    (map (fun v => if models.Veiculo.id v =? k
                                   then models.Veiculo.set_status st v
                                   else v) (veiculos db))
                    (usuarios db), None)
    | DelVeiculo k =>
        inr (mkDB (tables_created db)
                  (filter (fun v => negb (models.Veiculo.id v =? k))
                          (veiculos db))
                  (usuarios db), None)
    | DelUsuario k =>
        inr (mkDB (tables_created db) (veiculos db)
                  (filter (fun u => negb (models.Usuario.id u =? k))
                          (usuarios db)), None)
    end.

(** The whole unit of work, in order; the first fault aborts it. *)
Fixpoint apply_changes (cs : list change) (db : DB) (last : option Z)
  : engine_fault + (DB * option Z) :=
  match cs with
  | [] => inr (db, last)
  | c :: cs' =>
      match apply_change c db with
      | inl f => inl f
      | inr (db', Some k) => apply_changes cs' db' (Some k)
      | inr (db', None) => apply_changes cs' db' last
      end
  end.

Definition fault_exn (f : engine_fault) : exn :=
  match f with
  | NoSuchTable _ => OperationalError f
  | UniqueViolation _ | CheckViolation _ => IntegrityError f
  end.

(** [db.add(obj)] and [db.delete(obj)] and attribute assignment only
    register the change in the unit of work. *)
Definition register (c : change) : M unit :=
  fun s =>
    (Ok tt, mkState (store s) (pending s ++ [c]) (lastrowid s) (log s)
                    (stdout s)).

(** [db.commit()]: the unit of work is flushed and committed as one
    transaction.  When the engine refuses a statement nothing is stored, the
    exception is raised, and the unit of work stays until [rollback]. *)
Definition commit : M unit :=
  fun s =>
    let l := log s ++ map stmt_of (pending s) in
    match apply_changes (pending s) (store s) (lastrowid s) with
    | inr (db', last) =>
        (Ok tt, mkState db' [] last (l ++ [COMMIT]) (stdout s))
    | inl f =>
        (Raise (fault_exn f),
         mkState (store s) (pending s) (lastrowid s) l (stdout s))
    end.

(** [db.rollback()] *)
Definition rollback : M unit :=
  fun s =>
    (Ok tt, mkState (store s) [] (lastrowid s) (log s ++ [ROLLBACK])
                    (stdout s)).

(** [db.query(models.Veiculo).filter(p).first()] *)
Definition query_veiculo_first (p : models.Veiculo.t -> bool)
  : M (option models.Veiculo.t) :=
  db <- execute (SELECT "veiculos") ;; ret (find p (veiculos db)).

(** [db.query(models.Veiculo).all()] *)
Definition query_veiculo_all : M (list models.Veiculo.t) :=
  db <- execute (SELECT "veiculos") ;; ret (veiculos db).

(** [db.query(models.Usuario).filter(p).first()] *)
Definition query_usuario_first (p : models.Usuario.t -> bool)
  : M (option models.Usuario.t) :=
  db <- execute (SELECT "usuarios") ;; ret (find p (usuarios db)).

(** [db.query(models.Usuario).all()] *)
Definition query_usuario_all : M (list models.Usuario.t) :=
  db <- execute (SELECT "usuarios") ;; ret (usuarios db).

(** [db.refresh(obj)] reloads the row with the object's primary key. *)
Definition refresh_veiculo (pk : Z) : M models.Veiculo.t :=
  o <- query_veiculo_first (fun v => models.Veiculo.id v =? pk) ;;
  match o with
  | Some v => ret v
  | None => raise InvalidRequestError
  end.

Definition refresh_usuario (pk : Z) : M models.Usuario.t :=
  o <- query_usuario_first (fun u => models.Usuario.id u =? pk) ;;
  match o with
  | Some u => ret u
  | None => raise InvalidRequestError
  end.

(** The primary key of the object added last, which the ORM reads back from
    the engine after the flush. *)
Definition inserted_primary_key : M Z :=
  fun s =>
    match lastrowid s with
    | Some k => (Ok k, s)
    | None => (Raise InvalidRequestError, s)
    end.

(** [try: body except Exception as e: handler(e)] *)
Definition try_except {A} (body : M A) (handler : exn -> M A) : M A :=
  fun s =>
    match body s with
    | (Raise e, s') => handler e s'
    | other => other
    end.

(** [for x in xs: body(x)] *)
Fixpoint for_each {A} (xs : list A) (body : A -> M unit) : M unit :=
  match xs with
  | [] => ret tt
  | x :: xs' => body x ;;; for_each xs' body
  end.

(** ** Request and response shapes ([app/schemas.py]) *)

#[warnings="-register-all"]
Inductive json : Type :=
| JNull
| JInt (n : Z)
| JStr (s : string)
| JArr (items : list json)
| JObj (fields : list (string * json)).

Module schemas.

(** A [VeiculoCreate] object, which exists only once validation passed. *)
Module VeiculoCreate.
Record t : Type := Build
  { marca : string; modelo : string; ano : Z; placa : string;
    status : string }.
End VeiculoCreate.

(** The JSON body of a vehicle-creation request: each key may be absent. *)
Module VeiculoCreateBody.
Record t : Type := Build
  { marca : option string; modelo : option string; ano : option Z;
    placa : option string; status : option string }.
End VeiculoCreateBody.

Definition missing {A} (name : string) (o : option A) : list string :=
  match o with
  | Some _ => []
  | None => [name]
  end.

(** The fields of a body that fail their declaration, in field order:
    [marca: str], [modelo: str], [ano: conint(ge=1886)],
    [placa: constr(min_length=7, max_length=7)] and the validator of
    [status], which runs only on a supplied value. *)
Definition VeiculoCreate_errors (b : VeiculoCreateBody.t) : list string :=
  missing "marca" (VeiculoCreateBody.marca b)
  ++ missing "modelo" (VeiculoCreateBody.modelo b)
  ++ match VeiculoCreateBody.ano b with
     | Some a => if 1886 <=? a then [] else ["ano"]
     | None => ["ano"]
     end
  ++ match VeiculoCreateBody.placa b with
     | Some p => if (String.length p =? 7)%nat then [] else ["placa"]
     | None => ["placa"]
     end
  ++ match VeiculoCreateBody.status b with
     | Some s => if status_ok s then [] else ["status"]
     | None => []
     end.

Definition VeiculoCreate_validate (b : VeiculoCreateBody.t)
  : list string + VeiculoCreate.t :=
  match VeiculoCreate_errors b,
        VeiculoCreateBody.marca b, VeiculoCreateBody.modelo b,
        VeiculoCreateBody.ano b, VeiculoCreateBody.placa b with
  | [], Some ma, Some mo, Some an, Some pl =>
      inr (VeiculoCreate.Build ma mo an pl
             match VeiculoCreateBody.status b with
             | Some s => s
             | None => "DESCONECTADO"
             end)
  | errs, _, _, _, _ => inl errs
  end.

Module UsuarioCreate.
Record t : Type := Build { username : string; password : string }.
End UsuarioCreate.

Module UsuarioCreateBody.
Record t : Type := Build
  { username : option string; password : option string }.
End UsuarioCreateBody.

Definition UsuarioCreate_errors (b : UsuarioCreateBody.t) : list string :=
  missing "username" (UsuarioCreateBody.username b)
  ++ missing "password" (UsuarioCreateBody.password b).

Definition UsuarioCreate_validate (b : UsuarioCreateBody.t)
  : list string + UsuarioCreate.t :=
  match UsuarioCreateBody.username b, UsuarioCreateBody.password b with
  | Some u, Some p => inr (UsuarioCreate.Build u p)
  | _, _ => inl (UsuarioCreate_errors b)
  end.

(** [response_model=schemas.Veiculo] *)
Definition Veiculo (v : models.Veiculo.t) : json :=
  JObj [("id", JInt (models.Veiculo.id v));
        ("marca", JStr (models.Veiculo.marca v));
        ("modelo", JStr (models.Veiculo.modelo v));
        ("ano", JInt (models.Veiculo.ano v));
        ("placa", JStr (models.Veiculo.placa v));
        ("status", JStr (models.Veiculo.status v))].

(** [response_model=schemas.Usuario]: [username] of [UsuarioBase], then
    [id]. *)
Definition Usuario (u : models.Usuario.t) : json :=
  JObj [("username", JStr (models.Usuario.username u));
        ("id", JInt (models.Usuario.id u))].

(** [response_model=schemas.Token] *)
Module Token.
Record t : Type := Build { access_token : string; token_type : string }.
End Token.

Definition Token (t : Token.t) : json :=
  JObj [("access_token", JStr (Token.access_token t));
        ("token_type", JStr (Token.token_type t))].

End schemas.

(** ** HTTP responses *)

Record Response : Type := mkResponse
  { status_code : Z;
    headers : list (string * string);
    body : json }.

(** What the framework answers for the outcome of a handler: the encoded
    value, the [HTTPException] as raised, or a plain 500 for any other
    exception. *)
Definition respond {A} (encode : A -> json) (r : Result A) : Response :=
  match r with
  | Ok a => mkResponse 200 [] (encode a)
  | Raise (HTTPException c d h) => mkResponse c h (JObj [("detail", JStr d)])
  | Raise _ => mkResponse 500 [] (JStr "Internal Server Error")
  end.

(** The answer to a body that fails validation; the handler is not called.
    Only the offending fields are kept of the error report. *)
Definition unprocessable (errs : list string) : Response :=
  mkResponse 422 [] (JObj [("detail", JArr (map JStr errs))]).

(** One request: [get_db] opens a session, the handler runs, and the
    session is closed on every exit path. *)
Definition serve {A} (encode : A -> json) (handler : M A) (db : DB)
  : Response * State :=
  let (r, s) := handler (open_session db) in (respond encode r, close s).

Definition string_of_Z (n : Z) : string :=
  NilZero.string_of_int (Z.to_int n).

Section App.

(** What [app/auth.py] and the libraries behind it supply: the password
    hash used by [crud] ([pwd_context.hash]) and by [main]
    ([auth.get_password_hash]), hash verification, token signing with the
    configured lifetime, and the text of the engine's exceptions. *)
Variable pwd_context_hash : string -> string.
Variable get_password_hash : string -> string.
Variable verify_password : string -> string -> bool.
Variable create_access_token : string -> Z -> string.
Variable ACCESS_TOKEN_EXPIRE_MINUTES : Z.
Variable engine_text : exn -> string.

(** [str(e)] *)
Definition str (e : exn) : string :=
  match e with
  | ValueError msg => msg
  | HTTPException c d _ => (string_of_Z c ++ ": " ++ d)%string
  | other => engine_text other
  end.

(** *** Data access ([app/crud.py]) *)

Definition get_veiculo (veiculo_id : Z) : M (option models.Veiculo.t) :=
  query_veiculo_first (fun v => models.Veiculo.id v =? veiculo_id).

Definition get_veiculo_by_placa (placa : string)
  : M (option models.Veiculo.t) :=
  query_veiculo_first (fun v => models.Veiculo.placa v =? placa)%string.

Definition add_veiculo (veiculo : schemas.VeiculoCreate.t) : M unit :=
  register (AddVeiculo (schemas.VeiculoCreate.marca veiculo)
                       (schemas.VeiculoCreate.modelo veiculo)
                       (schemas.VeiculoCreate.ano veiculo)
                       (schemas.VeiculoCreate.placa veiculo)
                       (schemas.VeiculoCreate.status veiculo)).

(** [db.query(models.Veiculo).offset(skip).limit(limit).all()]: the rows
    after the first [skip], at most [limit] of them.  The engine reads a
    negative offset as none and a negative limit as no limit. *)
Definition query_veiculo_page (skip limit : Z) : M (list models.Veiculo.t) :=
  db <- execute (SELECT "veiculos") ;;
  let rest := skipn (Z.to_nat skip) (veiculos db) in
  ret (if limit <? 0 then rest else firstn (Z.to_nat limit) rest).

Definition get_veiculos (skip limit : Z) : M (list models.Veiculo.t) :=
  query_veiculo_page skip limit.

Definition create_veiculo (veiculo : schemas.VeiculoCreate.t)
  : M models.Veiculo.t :=
  if negb (status_ok (schemas.VeiculoCreate.status veiculo)) then
    raise (ValueError "Status deve ser 'CONNECTADO' ou 'DESCONECTADO'")
  else
    existing_veiculo <-
      get_veiculo_by_placa (schemas.VeiculoCreate.placa veiculo) ;;
    match existing_veiculo with
    | Some _ =>
        raise (ValueError ("Veículo com placa '"
                           ++ schemas.VeiculoCreate.placa veiculo
                           ++ "' já existe.")%string)
    | None =>
        add_veiculo veiculo ;;;
        try_except_IntegrityError commit
          (rollback ;;;
           raise (ValueError ("Erro ao adicionar veículo com placa '"
                              ++ schemas.VeiculoCreate.placa veiculo
                              ++ "'.")%string)) ;;;
        pk <- inserted_primary_key ;;
        refresh_veiculo pk
    end.

Definition update_veiculo_status (veiculo_id : Z) (status : string)
  : M (option models.Veiculo.t) :=
  if negb (status_ok status) then
    raise (ValueError "Status deve ser 'CONNECTADO' ou 'DESCONECTADO'")
  else
    veiculo <- get_veiculo veiculo_id ;;
    match veiculo with
    | Some v =>
        register (SetStatus (models.Veiculo.id v) status) ;;;
        commit ;;;
        v' <- refresh_veiculo (models.Veiculo.id v) ;;
        ret (Some v')
    | None => ret None
    end.

Definition delete_veiculo (veiculo_id : Z) : M (option models.Veiculo.t) :=
  veiculo <- get_veiculo veiculo_id ;;
  match veiculo with
  | Some v =>
      register (DelVeiculo (models.Veiculo.id v)) ;;;
      commit ;;;
      ret (Some v)
  | None => ret None
  end.

Definition get_usuario_by_username (username : string)
  : M (option models.Usuario.t) :=
  query_usuario_first (fun u => models.Usuario.username u =? username)%string.

Definition create_usuario (usuario : schemas.UsuarioCreate.t)
  : M models.Usuario.t :=
  existing_user <-
    get_usuario_by_username (schemas.UsuarioCreate.username usuario) ;;
  match existing_user with
  | Some _ =>
      raise (ValueError ("Usuário '"
                         ++ schemas.UsuarioCreate.username usuario
                         ++ "' já existe.")%string)
  | None =>
      let hashed_password :=
        pwd_context_hash (schemas.UsuarioCreate.password usuario) in
      register (AddUsuario (schemas.UsuarioCreate.username usuario)
                           hashed_password) ;;;
      commit ;;;
      pk <- inserted_primary_key ;;
      refresh_usuario pk
  end.

Definition delete_usuario (usuario_id : Z) : M models.Usuario.t :=
  usuario <- query_usuario_first (fun u => models.Usuario.id u =? usuario_id) ;;
  match usuario with
  | None =>
      raise (ValueError ("Usuário com ID " ++ string_of_Z usuario_id
                         ++ " não encontrado.")%string)
  | Some u =>
      register (DelUsuario (models.Usuario.id u)) ;;;
      commit ;;;
      ret u
  end.

(** *** Authentication *)

(** Modelled from the spec: [authenticate_user] of [app/auth.py], which is
    not among the sources.  The user is looked up by username; if absent,
    or if password verification fails, authentication is rejected. *)
Definition authenticate_user (username password : string)
  : M (option models.Usuario.t) :=
  user <- get_usuario_by_username username ;;
  match user with
  | None => ret None
  | Some u =>
      if verify_password password (models.Usuario.hashed_password u)
      then ret (Some u)
      else ret None
  end.

(** *** Route handlers ([app/main.py])

    The vehicle handlers are given as they run once the
    [get_current_active_user] dependency has resolved; none of them reads
    [current_user]. *)

(** [lifespan]: the tables are created at startup. *)
Definition lifespan_startup (db : DB) : DB :=
  mkDB true (veiculos db) (usuarios db).

Definition login_for_access_token (username password : string)
  : M schemas.Token.t :=
  user <- authenticate_user username password ;;
  match user with
  | None =>
      raise (HTTPException 401 "Usuário ou senha incorretos"
                           [("WWW-Authenticate", "Bearer")])
  | Some u =>
      let access_token :=
        create_access_token (models.Usuario.username u)
                            ACCESS_TOKEN_EXPIRE_MINUTES in
      ret (schemas.Token.Build access_token "bearer")
  end.

Definition criar_usuario (usuario : schemas.UsuarioCreate.t)
  : M models.Usuario.t :=
  let hashed_password :=
    get_password_hash (schemas.UsuarioCreate.password usuario) in
  register (AddUsuario (schemas.UsuarioCreate.username usuario)
                       hashed_password) ;;;
  commit ;;;
  pk <- inserted_primary_key ;;
  refresh_usuario pk.

Definition read_root : M json :=
  ret (JObj [("message",
              JStr "Bem-vindo à API de gerenciamento de veículos!")]).

Definition listar_veiculos : M (list models.Veiculo.t) :=
  query_veiculo_all.

Definition criar_veiculo (veiculo : schemas.VeiculoCreate.t)
  : M models.Veiculo.t :=
  if negb (status_ok (schemas.VeiculoCreate.status veiculo)) then
    raise (HTTPException 400
             "Status inválido. O status deve ser 'CONNECTADO' ou 'DESCONECTADO'."
             [])
  else
    try_except_IntegrityError
      (add_veiculo veiculo ;;;
       commit ;;;
       pk <- inserted_primary_key ;;
       refresh_veiculo pk)
      (rollback ;;;
       raise (HTTPException 400 "Placa já registrada." [])).

Definition obter_veiculo (veiculo_id : Z) : M models.Veiculo.t :=
  veiculo <-
    query_veiculo_first (fun v => models.Veiculo.id v =? veiculo_id) ;;
  match veiculo with
  | None => raise (HTTPException 404 "Veículo não encontrado" [])
  | Some v => ret v
  end.

Definition atualizar_status (veiculo_id : Z) (status : string)
  : M models.Veiculo.t :=
  if negb (status_ok status) then
    raise (HTTPException 400
             "Status inválido. O status deve ser 'CONNECTADO' ou 'DESCONECTADO'."
             [])
  else
    veiculo <-
      query_veiculo_first (fun v => models.Veiculo.id v =? veiculo_id) ;;
    match veiculo with
    | None => raise (HTTPException 404 "Veículo não encontrado" [])
    | Some v =>
        register (SetStatus (models.Veiculo.id v) status) ;;;
        commit ;;;
        refresh_veiculo (models.Veiculo.id v)
    end.

Definition excluir_veiculo (veiculo_id : Z) : M json :=
  veiculo <-
    query_veiculo_first (fun v => models.Veiculo.id v =? veiculo_id) ;;
  match veiculo with
  | None => raise (HTTPException 404 "Veículo não encontrado" [])
  | Some v =>
      register (DelVeiculo (models.Veiculo.id v)) ;;;
      commit ;;;
      ret (JObj [("message", JStr "Veículo excluído com sucesso")])
  end.


(** *** The application as a whole *)

(** The requests the service answers.  A body that is not yet validated is
    carried as it arrives. *)
Inductive Request : Type :=
| POST_token (username password : string)
| POST_usuarios (body : schemas.UsuarioCreateBody.t)
| GET_root
| GET_veiculos
| POST_veiculos (body : schemas.VeiculoCreateBody.t)
| GET_veiculo (veiculo_id : Z)
| PUT_veiculo (veiculo_id : Z) (status : string)
| DELETE_veiculo (veiculo_id : Z).

Definition post_usuarios (body : schemas.UsuarioCreateBody.t) (db : DB)
  : Response * State :=
  match schemas.UsuarioCreate_validate body with
  | inl errs => (unprocessable errs, open_session db)
  | inr usuario => serve schemas.Usuario (criar_usuario usuario) db
  end.

Definition post_veiculos (body : schemas.VeiculoCreateBody.t) (db : DB)
  : Response * State :=
  match schemas.VeiculoCreate_validate body with
  | inl errs => (unprocessable errs, open_session db)
  | inr veiculo => serve schemas.Veiculo (criar_veiculo veiculo) db
  end.

Definition app (req : Request) (db : DB) : Response * State :=
  match req with
  | POST_token u p => serve schemas.Token (login_for_access_token u p) db
  | POST_usuarios body => post_usuarios body db
  | GET_root => serve (fun j => j) read_root db
  | GET_veiculos =>
      serve (fun vs => JArr (map schemas.Veiculo vs)) listar_veiculos db
  | POST_veiculos body => post_veiculos body db
  | GET_veiculo k => serve schemas.Veiculo (obter_veiculo k) db
  | PUT_veiculo k st => serve schemas.Veiculo (atualizar_status k st) db
  | DELETE_veiculo k => serve (fun j => j) (excluir_veiculo k) db
  end.

(** *** Operator CLI ([manage_users.py]) *)

Inductive Action : Type :=
| action_create
| action_list
| action_delete.

(** What [argparse] hands over: an option that was not given is [None]. *)
Record Args : Type := mkArgs
  { action : Action;
    username : option string;
    password : option string }.

(** A value that is not falsy: given, and not the empty text. *)
Definition truthy (o : option string) : option string :=
  match o with
  | Some s => if (s =? "")%string then None else Some s
  | None => None
  end.

(** The body of the [try] block of [main]. *)
Definition main_action (args : Args) : M unit :=
  match action args with
  | action_create =>
      match truthy (username args), truthy (password args) with
      | Some u, Some p =>
          existing_user <- get_usuario_by_username u ;;
          match existing_user with
          | Some _ => print ("Usuário '" ++ u ++ "' já existe.")%string
          | None =>
              create_usuario (schemas.UsuarioCreate.Build u p) ;;;
              print ("Usuário '" ++ u ++ "' criado com sucesso.")%string
          end
      | _, _ =>
          print "Usuário e senha são necessários para criar um novo usuário."
      end
  | action_list =>
      usuarios <- query_usuario_all ;;
      for_each usuarios
        (fun usuario =>
           print ("ID: " ++ string_of_Z (models.Usuario.id usuario)
                  ++ ", Username: " ++ models.Usuario.username usuario)%string)
  | action_delete =>
      match truthy (username args) with
      | None => print "Nome de usuário é necessário para excluir um usuário."
      | Some u =>
          usuario <- get_usuario_by_username u ;;
          match usuario with
          | Some usr =>
              delete_usuario (models.Usuario.id usr) ;;;
              print ("Usuário '" ++ u ++ "' excluído com sucesso.")%string
          | None => print ("Usuário '" ++ u ++ "' não encontrado.")%string
          end
      end
  end.

(** [main]: the session is opened, the action runs under
    [except Exception], and the session is closed on the way out. *)
Definition main (args : Args) (db : DB) : Result unit * State :=
  let (r, s) :=
    try_except (main_action args)
               (fun e => print ("Ocorreu um erro: " ++ str e)%string)
               (open_session db) in
  (r, close s).

(** *** Histories *)

Inductive Event : Type :=
| Startup
| Http (req : Request)
| Cli (args : Args).

(** The database an event leaves behind. *)
Definition step (db : DB) (ev : Event) : DB :=
  match ev with
  | Startup => lifespan_startup db
  | Http req => store (snd (app req db))
  | Cli args => store (snd (main args db))
  end.

Definition run (db : DB) (evs : list Event) : DB := fold_left step evs db.

End App.

(** ** Invariants of the tables *)

(** No two vehicles share a plate. *)
Definition plates_unique (db : DB) : Prop :=
  NoDup (map models.Veiculo.placa (veiculos db)).

(** The primary key of [veiculos]. *)
Definition veiculo_ids_unique (db : DB) : Prop :=
  NoDup (map models.Veiculo.id (veiculos db)).

(** Every stored status is in the vocabulary ([check_status]). *)
Definition statuses_valid (db : DB) : Prop :=
  Forall (fun v => In (models.Veiculo.status v) status_vocabulary)
         (veiculos db).

(** No two users share a username. *)
Definition usernames_unique (db : DB) : Prop :=
  NoDup (map models.Usuario.username (usuarios db)).

(** The row a vehicle-creation request becomes under the key [k]. *)
Definition veiculo_row (k : Z) (veiculo : schemas.VeiculoCreate.t)
  : models.Veiculo.t :=
  models.Veiculo.Build k (schemas.VeiculoCreate.marca veiculo)
                       (schemas.VeiculoCreate.modelo veiculo)
                       (schemas.VeiculoCreate.ano veiculo)
                       (schemas.VeiculoCreate.placa veiculo)
                       (schemas.VeiculoCreate.status veiculo).

(** The line the CLI prints for a user. *)
Definition listing_line (u : models.Usuario.t) : string :=
  ("ID: " ++ string_of_Z (models.Usuario.id u)
   ++ ", Username: " ++ models.Usuario.username u)%string.

(** The answer to a successful deletion. *)
Definition deleted : Response :=
  mkResponse 200 [] (JObj [("message", JStr "Veículo excluído com sucesso")]).

(** A specification of what it means for a state transformer to keep a
    property of the committed store. *)
Definition preserves (P : DB -> Prop) {A} (m : M A) : Prop :=
  forall s, P (store s) -> P (store (snd (m s))).

(** ** Fixed answers *)

(** The answer to a request for a vehicle that is not stored. *)
Definition not_found : Response :=
  mkResponse 404 [] (JObj [("detail", JStr "Veículo não encontrado")]).

(** The answer to a status outside the vocabulary. *)
Definition invalid_status : Response :=
  mkResponse 400 []
    (JObj [("detail",
            JStr "Status inválido. O status deve ser 'CONNECTADO' ou 'DESCONECTADO'.")]).

(** The answer to a failed login. *)
Definition unauthorized : Response :=
  mkResponse 401 [("WWW-Authenticate", "Bearer")]
    (JObj [("detail", JStr "Usuário ou senha incorretos")]).

(** The answer to an exception no handler catches. *)
Definition internal_error : Response :=
  mkResponse 500 [] (JStr "Internal Server Error").

(** The user table with every stored hash blanked out. *)
Definition redact (db : DB) : DB :=
  mkDB (tables_created db) (veiculos db)
       (map (fun u => models.Usuario.Build (models.Usuario.id u)
                        (models.Usuario.username u) "")
            (usuarios db)).

(** The keys of a JSON object. *)
Definition keys (j : json) : list string :=
  match j with
  | JObj fields => map fst fields
  | _ => []
  end.

(** ** Sample data *)

Definition empty_db : DB := mkDB true [] [].

Definition uno : models.Veiculo.t :=
  models.Veiculo.Build 1 "Fiat" "Uno" 2022 "ABC1234" "CONNECTADO".

Definition gol : models.Veiculo.t :=
  models.Veiculo.Build 2 "VW" "Gol" 2019 "XYZ5678" "DESCONECTADO".

Definition toy_hash (p : string) : string := ("$" ++ p)%string.

Definition toy_verify (p h : string) : bool := (toy_hash p =? h)%string.

Definition toy_token (sub : string) (minutes : Z) : string :=
  ("token:" ++ sub)%string.

Definition toy_text (e : exn) : string :=
  match e with
  | OperationalError (NoSuchTable t) => ("no such table: " ++ t)%string
  | _ => "engine error"
  end.

Definition bob : models.Usuario.t :=
  models.Usuario.Build 1 "bob" (toy_hash "secret").

Definition fleet_db : DB := mkDB true [uno; gol] [bob].

(** Requests whose texts are empty. *)
Definition nameless_veiculo : schemas.VeiculoCreateBody.t :=
  schemas.VeiculoCreateBody.Build (Some "") (Some "") (Some 2022)
                                  (Some "ABC1234") None.

Definition nameless_usuario : schemas.UsuarioCreateBody.t :=
  schemas.UsuarioCreateBody.Build (Some "") (Some "").

(** The Fiat Uno of the smoke test, as a body and as a validated request. *)
Definition uno_body : schemas.VeiculoCreateBody.t :=
  schemas.VeiculoCreateBody.Build (Some "Fiat") (Some "Uno") (Some 2022)
                                  (Some "ABC1234") (Some "CONNECTADO").

Definition uno_request : schemas.VeiculoCreate.t :=
  schemas.VeiculoCreate.Build "Fiat" "Uno" 2022 "ABC1234" "CONNECTADO".

(** Startup, then the Uno is created and switched off. *)
Definition sample_history : list Event :=
  [Startup; Http (POST_veiculos uno_body); Http (PUT_veiculo 1 "DESCONECTADO")].

(** A request for a vehicle whose plate is not in [fleet_db]. *)
Definition ka_request : schemas.VeiculoCreate.t :=
  schemas.VeiculoCreate.Build "Ford" "Ka" 2015 "KAA0001" "DESCONECTADO".

(** Startup, a user is created over HTTP, another from the CLI. *)
Definition user_history : list Event :=
  [Startup;
   Http (POST_usuarios (schemas.UsuarioCreateBody.Build (Some "bob")
                                                        (Some "secret")));
   Cli (mkArgs action_create (Some "alice") (Some "pw"))].

(** A database file on which the tables were never created. *)
Definition fresh_file : DB := mkDB false [] [].

(** * Properties *)

(** ** Facts about the vocabulary and about lookups *)

Lemma status_ok_In (s : string) : status_ok s = true <-> In s status_vocabulary.
Proof.
  unfold status_ok. rewrite existsb_exists. split.
  - intros [x [Hx Heq]]. apply String.eqb_eq in Heq. now subst.
  - intros H. exists s. split; [assumption | apply String.eqb_refl].
Qed.

Lemma status_ok_not_In (s : string) :
  ~ In s status_vocabulary -> status_ok s = false.
Proof.
  intros H. destruct (status_ok s) eqn:E; [|reflexivity].
  apply status_ok_In in E. contradiction.
Qed.

Lemma find_absent {A} (p : A -> bool) (l : list A) :
  (forall x, In x l -> p x = false) -> find p l = None.
Proof.
  induction l as [|a l IH]; intros H; [reflexivity|].
  simpl. rewrite (H a (or_introl eq_refl)).
  apply IH. intros x Hx. apply H. now right.
Qed.

Lemma find_veiculo_absent (k : Z) (l : list models.Veiculo.t) :
  (forall v, In v l -> models.Veiculo.id v <> k) ->
  find (fun v => models.Veiculo.id v =? k) l = None.
Proof.
  intros H. apply find_absent. intros v Hv. apply Z.eqb_neq. now apply H.
Qed.

(** With a primary key, the lookup by key finds the row itself. *)
Lemma find_veiculo_present (v : models.Veiculo.t) (l : list models.Veiculo.t) :
  NoDup (map models.Veiculo.id l) -> In v l ->
  find (fun x => models.Veiculo.id x =? models.Veiculo.id v) l = Some v.
Proof.
  induction l as [|a l IH]; intros Hnd Hin; [contradiction|].
  simpl in *. apply NoDup_cons_iff in Hnd as [Hnotin Hnd].
  destruct Hin as [-> | Hin].
  - now rewrite Z.eqb_refl.
  - destruct (models.Veiculo.id a =? models.Veiculo.id v) eqn:E.
    + apply Z.eqb_eq in E. exfalso. apply Hnotin. rewrite E.
      now apply in_map.
    + now apply IH.
Qed.

(** With a primary key, an update by key touches the row itself only. *)
Lemma update_by_key (st : string) (v : models.Veiculo.t)
      (l : list models.Veiculo.t) :
  NoDup (map models.Veiculo.id l) -> In v l ->
  map (fun x => if models.Veiculo.id x =? models.Veiculo.id v
                then models.Veiculo.set_status st x else x) l
  = map (fun x => if models.Veiculo.eq_dec x v
                  then models.Veiculo.set_status st v else x) l.
Proof.
  intros Hnd Hin. apply map_ext_in. intros x Hx.
  destruct (models.Veiculo.eq_dec x v) as [-> | Hne].
  - now rewrite Z.eqb_refl.
  - destruct (models.Veiculo.id x =? models.Veiculo.id v) eqn:E; [|reflexivity].
    exfalso. apply Hne. apply Z.eqb_eq in E.
    pose proof (find_veiculo_present v l Hnd Hin) as Fv.
    pose proof (find_veiculo_present x l Hnd Hx) as Fx.
    rewrite E in Fx. congruence.
Qed.

Lemma find_after_update (st : string) (v : models.Veiculo.t)
      (l : list models.Veiculo.t) :
  find (fun x => models.Veiculo.id x =? models.Veiculo.id v) l = Some v ->
  find (fun x => models.Veiculo.id x =? models.Veiculo.id v)
       (map (fun x => if models.Veiculo.id x =? models.Veiculo.id v
                      then models.Veiculo.set_status st x else x) l)
  = Some (models.Veiculo.set_status st v).
Proof.
  induction l as [|a l IH]; intros H; [discriminate|].
  simpl in *.
  destruct (models.Veiculo.id a =? models.Veiculo.id v) eqn:E.
  - injection H as ->. simpl. now rewrite Z.eqb_refl.
  - rewrite E. now apply IH.
Qed.

(** Evaluating a handler on a database whose tables exist: the database is
    split into its fields, and everything but the list functions computes. *)
Ltac on_tables db Ht :=
  destruct db as [created vs us]; cbn [tables_created veiculos usuarios] in *;
  subst created.

Ltac evaluate :=
  cbv - [find existsb filter map List.app String.eqb Z.eqb Z.add Z.max
         fold_right String.append string_of_Z status_ok next_id
         models.Veiculo.set_status models.Veiculo.eq_dec
         models.Veiculo.id models.Veiculo.marca models.Veiculo.modelo
         models.Veiculo.ano models.Veiculo.placa models.Veiculo.status
         models.Usuario.id models.Usuario.username
         models.Usuario.hashed_password
         schemas.VeiculoCreate.marca schemas.VeiculoCreate.modelo
         schemas.VeiculoCreate.ano schemas.VeiculoCreate.placa
         schemas.VeiculoCreate.status schemas.UsuarioCreate.username
         schemas.UsuarioCreate.password].

(** C4. A status update whose value lies outside the vocabulary is answered
    with 400 for any vehicle id, stored or not; no statement reaches the
    engine and the database is left as it was.  The data-access function
    [update_veiculo_status] refuses the same values with a [ValueError],
    also before any access. *)
Theorem atualizar_status_rejects_invalid_status :
  forall (db : DB) (veiculo_id : Z) (status : string),
    ~ In status status_vocabulary ->
    serve schemas.Veiculo (atualizar_status veiculo_id status) db
    = (invalid_status, open_session db)
    /\ update_veiculo_status veiculo_id status (open_session db)
       = (Raise (ValueError "Status deve ser 'CONNECTADO' ou 'DESCONECTADO'"),
          open_session db).
Proof.
  intros db k st Hst. apply status_ok_not_In in Hst.
  unfold serve, atualizar_status, update_veiculo_status.
  rewrite Hst. split; reflexivity.
Qed.

(** C7. For a vehicle id under which nothing is stored, reading, updating
    the status to a valid value, and deleting are each answered with 404 and
    leave the database unchanged. *)
Theorem absent_vehicle_is_not_found :
  forall (db : DB) (veiculo_id : Z) (status : string),
    tables_created db = true ->
    (forall v, In v (veiculos db) -> models.Veiculo.id v <> veiculo_id) ->
    In status status_vocabulary ->
    (fst (serve schemas.Veiculo (obter_veiculo veiculo_id) db) = not_found
     /\ store (snd (serve schemas.Veiculo (obter_veiculo veiculo_id) db)) = db)
    /\ (fst (serve schemas.Veiculo (atualizar_status veiculo_id status) db)
        = not_found
        /\ store (snd (serve schemas.Veiculo
                         (atualizar_status veiculo_id status) db)) = db)
    /\ (fst (serve (fun j => j) (excluir_veiculo veiculo_id) db) = not_found
        /\ store (snd (serve (fun j => j) (excluir_veiculo veiculo_id) db))
           = db).
Proof.
  intros db k st Ht Habs Hst.
  apply status_ok_In in Hst. apply find_veiculo_absent in Habs.
  on_tables db Ht.
  repeat split; unfold atualizar_status; rewrite ?Hst; evaluate;
    rewrite Habs; reflexivity.
Qed.

(** C10. A status update with a valid value on a stored vehicle answers 200
    with that vehicle carrying the new status; its id, brand, model, year and
    plate are as before, every other vehicle row is as before, and the user
    table is untouched. *)
Theorem atualizar_status_changes_only_status :
  forall (db : DB) (v : models.Veiculo.t) (status : string),
    tables_created db = true ->
    veiculo_ids_unique db ->
    In v (veiculos db) ->
    In status status_vocabulary ->
    let v' := models.Veiculo.set_status status v in
    let answer :=
      serve schemas.Veiculo
            (atualizar_status (models.Veiculo.id v) status) db in
    fst answer = mkResponse 200 [] (schemas.Veiculo v')
    /\ (models.Veiculo.id v' = models.Veiculo.id v
        /\ models.Veiculo.marca v' = models.Veiculo.marca v
        /\ models.Veiculo.modelo v' = models.Veiculo.modelo v
        /\ models.Veiculo.ano v' = models.Veiculo.ano v
        /\ models.Veiculo.placa v' = models.Veiculo.placa v
        /\ models.Veiculo.status v' = status)
    /\ veiculos (store (snd answer))
       = map (fun x => if models.Veiculo.eq_dec x v then v' else x)
             (veiculos db)
    /\ usuarios (store (snd answer)) = usuarios db
    /\ tables_created (store (snd answer)) = tables_created db.
Proof.
  intros db v st Ht Hpk Hin Hst v' answer. subst v' answer.
  apply status_ok_In in Hst. unfold veiculo_ids_unique in Hpk.
  on_tables db Ht.
  pose proof (find_veiculo_present v vs Hpk Hin) as Hfind.
  unfold atualizar_status. rewrite Hst.
  evaluate. rewrite Hfind. evaluate. cbn [List.app]. evaluate.
  rewrite Hst. evaluate.
  rewrite (find_after_update st v vs Hfind).
  rewrite (update_by_key st v vs Hpk Hin).
  repeat split; reflexivity.
Qed.

(** ** Properties of the store kept by every handler

    A property of the database that each flushed change keeps, and that does
    not depend on whether the tables were created, is kept by every
    primitive of the session, hence by every handler, the CLI, and every
    history. *)

Section Preservation.

Variable P : DB -> Prop.
Hypothesis P_change :
  forall c db db' o, apply_change c db = inr (db', o) -> P db -> P db'.
Hypothesis P_startup : forall db, P db -> P (lifespan_startup db).

Lemma apply_changes_keeps (cs : list change) :
  forall db last db' last',
    apply_changes cs db last = inr (db', last') -> P db -> P db'.
Proof.
  induction cs as [|c cs IH]; intros db last db' last' H HP; simpl in H.
  - now inversion H; subst.
  - destruct (apply_change c db) as [f | [db1 [k|]]] eqn:E; [discriminate| |].
    + eapply IH; [exact H | eapply P_change; eauto].
    + eapply IH; [exact H | eapply P_change; eauto].
Qed.

Lemma preserves_ret {A} (a : A) : preserves P (ret a).
Proof. intros s H; exact H. Qed.

Lemma preserves_raise {A} (e : exn) : preserves P (@raise A e).
Proof. intros s H; exact H. Qed.

Lemma preserves_print (line : string) : preserves P (print line).
Proof. intros s H; exact H. Qed.

Lemma preserves_register (c : change) : preserves P (register c).
Proof. intros s H; exact H. Qed.

Lemma preserves_rollback : preserves P rollback.
Proof. intros s H; exact H. Qed.

Lemma preserves_inserted_primary_key : preserves P inserted_primary_key.
Proof. intros s H. unfold inserted_primary_key. now destruct (lastrowid s). Qed.

Lemma preserves_execute (q : stmt) : preserves P (execute q).
Proof. intros s H. unfold execute. now destruct (tables_created (store s)). Qed.

Lemma preserves_commit : preserves P commit.
Proof.
  intros s H. unfold commit.
  destruct (apply_changes (pending s) (store s) (lastrowid s))
    as [f | [db' last]] eqn:E; simpl; [exact H|].
  eapply apply_changes_keeps; eauto.
Qed.

Lemma preserves_bind {A B} (m : M A) (k : A -> M B) :
  preserves P m -> (forall a, preserves P (k a)) -> preserves P (bind m k).
Proof.
  intros Hm Hk s H. unfold bind. specialize (Hm s H).
  destruct (m s) as [[a | e] s']; simpl in *; [now apply Hk | exact Hm].
Qed.

Lemma preserves_try_except_IntegrityError {A} (body handler : M A) :
  preserves P body -> preserves P handler ->
  preserves P (try_except_IntegrityError body handler).
Proof.
  intros Hb Hh s H. unfold try_except_IntegrityError. specialize (Hb s H).
  destruct (body s) as [[a | e] s']; simpl in *; [exact Hb|].
  destruct e; simpl; try exact Hb. now apply Hh.
Qed.

Lemma preserves_try_except {A} (body : M A) (handler : exn -> M A) :
  preserves P body -> (forall e, preserves P (handler e)) ->
  preserves P (try_except body handler).
Proof.
  intros Hb Hh s H. unfold try_except. specialize (Hb s H).
  destruct (body s) as [[a | e] s']; simpl in *; [exact Hb | now apply Hh].
Qed.

Lemma preserves_for_each {A} (xs : list A) (body : A -> M unit) :
  (forall x, preserves P (body x)) -> preserves P (for_each xs body).
Proof.
  intros Hb. induction xs as [|x xs IH]; simpl.
  - apply preserves_ret.
  - apply preserves_bind; [apply Hb | intros _; exact IH].
Qed.

(** One step of the syntax-directed argument. *)
Ltac preserve :=
  repeat first
    [ apply preserves_ret | apply preserves_raise | apply preserves_print
    | apply preserves_register | apply preserves_rollback
    | apply preserves_inserted_primary_key | apply preserves_execute
    | apply preserves_commit
    | apply preserves_try_except_IntegrityError
    | apply preserves_try_except; [|intro]
    | apply preserves_for_each; intro
    | apply preserves_bind; [|intro]
    | match goal with
      | |- preserves _ (match ?x with _ => _ end) => destruct x
      end ].

Lemma serve_keeps {A} (encode : A -> json) (handler : M A) (db : DB) :
  preserves P handler -> P db -> P (store (snd (serve encode handler db))).
Proof.
  intros Hh H. unfold serve. specialize (Hh (open_session db) H).
  now destruct (handler (open_session db)) as [r s].
Qed.

Lemma app_keeps gph vp cat minutes (req : Request) (db : DB) :
  P db -> P (store (snd (app gph vp cat minutes req db))).
Proof.
  intros H. destruct req as [u p | b | | | b | k | k st | k];
    unfold app, post_usuarios, post_veiculos.
  - apply serve_keeps; [|exact H].
    unfold login_for_access_token, authenticate_user,
      get_usuario_by_username, query_usuario_first. preserve.
  - destruct (schemas.UsuarioCreate_validate b); [exact H|].
    apply serve_keeps; [|exact H].
    unfold criar_usuario, refresh_usuario, query_usuario_first. preserve.
  - apply serve_keeps; [|exact H]. unfold read_root. preserve.
  - apply serve_keeps; [|exact H].
    unfold listar_veiculos, query_veiculo_all. preserve.
  - destruct (schemas.VeiculoCreate_validate b); [exact H|].
    apply serve_keeps; [|exact H].
    unfold criar_veiculo, add_veiculo, refresh_veiculo, query_veiculo_first.
    preserve.
  - apply serve_keeps; [|exact H].
    unfold obter_veiculo, query_veiculo_first. preserve.
  - apply serve_keeps; [|exact H].
    unfold atualizar_status, refresh_veiculo, query_veiculo_first. preserve.
  - apply serve_keeps; [|exact H].
    unfold excluir_veiculo, query_veiculo_first. preserve.
Qed.

Lemma main_keeps pch text (args : Args) (db : DB) :
  P db -> P (store (snd (main pch text args db))).
Proof.
  intros H. unfold main.
  assert (Hm : preserves P
                 (try_except (main_action pch args)
                    (fun e => print ("Ocorreu um erro: " ++ str text e)%string))).
  { unfold main_action, create_usuario, delete_usuario,
      get_usuario_by_username, refresh_usuario, query_usuario_first,
      query_usuario_all.
    preserve. }
  specialize (Hm (open_session db) H).
  now destruct (try_except _ _ (open_session db)) as [r s].
Qed.

Lemma run_keeps pch gph vp cat minutes text (evs : list Event) :
  forall db, P db -> P (run pch gph vp cat minutes text db evs).
Proof.
  unfold run. induction evs as [|ev evs IH]; intros db H; simpl; [exact H|].
  apply IH. destruct ev; simpl.
  - now apply P_startup.
  - now apply app_keeps.
  - now apply main_keeps.
Qed.

End Preservation.

(** ** Uniqueness of plates and of primary keys *)

Lemma NoDup_snoc {A} (l : list A) (x : A) :
  NoDup l -> ~ In x l -> NoDup (l ++ [x]).
Proof.
  intros Hl Hx. apply NoDup_app; [assumption | repeat constructor; intros [] |].
  intros a Ha [<- | []]. contradiction.
Qed.

(** Deleting rows keeps a column free of duplicates. *)
Lemma delete_keeps_distinct {Row Col} (column : Row -> Col)
      (kept : Row -> bool) :
  forall rows,
    NoDup (map column rows) -> NoDup (map column (filter kept rows)).
Proof.
  induction rows as [|r rows IH]; intros H; simpl in *; [constructor|].
  apply NoDup_cons_iff in H as [Hnew H].
  destruct (kept r); simpl; [|now apply IH].
  constructor; [|now apply IH].
  intros Hin. apply Hnew. apply in_map_iff in Hin as [x [Hx Hin]].
  apply filter_In in Hin as [Hin _]. apply in_map_iff. now exists x.
Qed.

Lemma plate_not_stored (pl : string) (vs : list models.Veiculo.t) :
  existsb (fun v => models.Veiculo.placa v =? pl)%string vs = false ->
  ~ In pl (map models.Veiculo.placa vs).
Proof.
  intros H Hin. apply in_map_iff in Hin as [v [Hv Hin]].
  assert (E : existsb (fun v => models.Veiculo.placa v =? pl)%string vs = true).
  { apply existsb_exists. exists v. split; [assumption|].
    now apply String.eqb_eq. }
  congruence.
Qed.

Lemma plate_stored (v : models.Veiculo.t) (vs : list models.Veiculo.t) :
  In v vs ->
  existsb (fun x => models.Veiculo.placa x =? models.Veiculo.placa v)%string vs
  = true.
Proof.
  intros H. apply existsb_exists. exists v. split; [assumption|].
  apply String.eqb_refl.
Qed.

Lemma next_id_above (ids : list Z) : forall k, In k ids -> k < next_id ids.
Proof.
  unfold next_id. induction ids as [|a ids IH]; intros k H; [contradiction|].
  cbn [fold_right]. destruct H as [-> | H]; [lia|]. specialize (IH k H). lia.
Qed.

Lemma next_id_fresh (ids : list Z) : ~ In (next_id ids) ids.
Proof. intros H. apply next_id_above in H. lia. Qed.

Lemma map_update_placa (k : Z) (st : string) (vs : list models.Veiculo.t) :
  map models.Veiculo.placa
      (map (fun v => if models.Veiculo.id v =? k
                     then models.Veiculo.set_status st v else v) vs)
  = map models.Veiculo.placa vs.
Proof.
  rewrite map_map. apply map_ext. intros v.
  now destruct (models.Veiculo.id v =? k).
Qed.

Lemma map_update_id (k : Z) (st : string) (vs : list models.Veiculo.t) :
  map models.Veiculo.id
      (map (fun v => if models.Veiculo.id v =? k
                     then models.Veiculo.set_status st v else v) vs)
  = map models.Veiculo.id vs.
Proof.
  rewrite map_map. apply map_ext. intros v.
  now destruct (models.Veiculo.id v =? k).
Qed.

Lemma apply_change_plates_unique (c : change) (db db' : DB) (o : option Z) :
  apply_change c db = inr (db', o) -> plates_unique db -> plates_unique db'.
Proof.
  unfold apply_change, plates_unique.
  destruct (tables_created db); simpl; [|discriminate].
  destruct c as [ma mo an pl st | un hp | k st | k | k]; intros H Hu.
  - destruct (status_ok st); simpl in H; [|discriminate].
    destruct (existsb _ (veiculos db)) eqn:E; [discriminate|].
    inversion H; subst; simpl. rewrite map_app. simpl.
    apply NoDup_snoc; [assumption | now apply plate_not_stored].
  - destruct (existsb _ (usuarios db)); [discriminate|].
    now inversion H; subst.
  - destruct (status_ok st); simpl in H; [|discriminate].
    inversion H; subst; simpl. now rewrite map_update_placa.
  - inversion H; subst; simpl. now apply delete_keeps_distinct.
  - now inversion H; subst.
Qed.

Lemma apply_change_ids_unique (c : change) (db db' : DB) (o : option Z) :
  apply_change c db = inr (db', o) ->
  veiculo_ids_unique db -> veiculo_ids_unique db'.
Proof.
  unfold apply_change, veiculo_ids_unique.
  destruct (tables_created db); simpl; [|discriminate].
  destruct c as [ma mo an pl st | un hp | k st | k | k]; intros H Hu.
  - destruct (status_ok st); simpl in H; [|discriminate].
    destruct (existsb _ (veiculos db)); [discriminate|].
    inversion H; subst; simpl. rewrite map_app. simpl.
    apply NoDup_snoc; [assumption | apply next_id_fresh].
  - destruct (existsb _ (usuarios db)); [discriminate|].
    now inversion H; subst.
  - destruct (status_ok st); simpl in H; [|discriminate].
    inversion H; subst; simpl. now rewrite map_update_id.
  - inversion H; subst; simpl. now apply delete_keeps_distinct.
  - now inversion H; subst.
Qed.

(** The primary key of [veiculos] holds along every history. *)
Lemma ids_unique_along_history pch gph vp cat minutes text
      (db : DB) (history : list Event) :
  veiculo_ids_unique db ->
  veiculo_ids_unique (run pch gph vp cat minutes text db history).
Proof.
  apply run_keeps; [apply apply_change_ids_unique | now intros d].
Qed.

(** A create request on a stored plate, at the endpoint. *)
Lemma criar_veiculo_duplicate (db : DB) (v : models.Veiculo.t)
      (veiculo : schemas.VeiculoCreate.t) :
  tables_created db = true ->
  In v (veiculos db) ->
  schemas.VeiculoCreate.placa veiculo = models.Veiculo.placa v ->
  In (schemas.VeiculoCreate.status veiculo) status_vocabulary ->
  fst (serve schemas.Veiculo (criar_veiculo veiculo) db)
  = mkResponse 400 [] (JObj [("detail", JStr "Placa já registrada.")])
  /\ snd (serve schemas.Veiculo (criar_veiculo veiculo) db)
     = mkState db [] None [INSERT "veiculos"; ROLLBACK] [].
Proof.
  intros Ht Hin Hpl Hst. apply status_ok_In in Hst.
  on_tables db Ht. apply plate_stored in Hin.
  unfold criar_veiculo. rewrite Hst. evaluate. cbn [List.app]. evaluate.
  rewrite Hst, Hpl, Hin. evaluate. split; reflexivity.
Qed.

(** The same request, at the data-access function. *)
Lemma create_veiculo_duplicate (db : DB) (v : models.Veiculo.t)
      (veiculo : schemas.VeiculoCreate.t) :
  tables_created db = true ->
  In v (veiculos db) ->
  schemas.VeiculoCreate.placa veiculo = models.Veiculo.placa v ->
  In (schemas.VeiculoCreate.status veiculo) status_vocabulary ->
  exists first,
    create_veiculo veiculo (open_session db)
    = (Raise (ValueError ("Veículo com placa '"
                          ++ schemas.VeiculoCreate.placa veiculo
                          ++ "' já existe.")%string),
       mkState db [] None [SELECT "veiculos"] [])
    /\ In first (veiculos db).
Proof.
  intros Ht Hin Hpl Hst. apply status_ok_In in Hst.
  on_tables db Ht.
  destruct (find (fun x => models.Veiculo.placa x
                           =? schemas.VeiculoCreate.placa veiculo)%string vs)
    as [w|] eqn:E.
  - exists w. split; [|now apply find_some in E].
    unfold create_veiculo. rewrite Hst. evaluate. rewrite E. reflexivity.
  - exfalso. apply (find_none _ _ E) in Hin. rewrite Hpl in Hin.
    now rewrite String.eqb_refl in Hin.
Qed.

(** C2. Along every history of requests and CLI runs the stored plates stay
    pairwise distinct, and in the database such a history leaves behind, a
    create request carrying the plate of a stored vehicle is answered with
    400 "Placa já registrada." and adds no row; the data-access function
    refuses it with its own duplicate error, again without adding a row. *)
Theorem plate_never_duplicated :
  forall pch gph vp cat minutes text (db : DB) (history : list Event),
    plates_unique db ->
    let now := run pch gph vp cat minutes text db history in
    plates_unique now
    /\ forall (v : models.Veiculo.t) (veiculo : schemas.VeiculoCreate.t),
        tables_created now = true ->
        In v (veiculos now) ->
        schemas.VeiculoCreate.placa veiculo = models.Veiculo.placa v ->
        In (schemas.VeiculoCreate.status veiculo) status_vocabulary ->
        serve schemas.Veiculo (criar_veiculo veiculo) now
        = (mkResponse 400 [] (JObj [("detail", JStr "Placa já registrada.")]),
           mkState now [] None [INSERT "veiculos"; ROLLBACK] [])
        /\ create_veiculo veiculo (open_session now)
           = (Raise (ValueError ("Veículo com placa '"
                                 ++ schemas.VeiculoCreate.placa veiculo
                                 ++ "' já existe.")%string),
              mkState now [] None [SELECT "veiculos"] []).
Proof.
  intros pch gph vp cat minutes text db history Hu now. split.
  - apply run_keeps; [apply apply_change_plates_unique | now intros d | exact Hu].
  - intros v veiculo Ht Hin Hpl Hst. split.
    + destruct (criar_veiculo_duplicate now v veiculo Ht Hin Hpl Hst) as [H1 H2].
      rewrite <- H1, <- H2. now destruct (serve _ _ _).
    + destruct (create_veiculo_duplicate now v veiculo Ht Hin Hpl Hst)
        as [w [H _]]. exact H.
Qed.

(** ** User creation *)

(** The data-access function checks the username first: on a stored
    username it raises its duplicate error after one read, and nothing is
    staged or stored. *)
Lemma create_usuario_duplicate pch (db : DB) (u : models.Usuario.t)
      (usuario : schemas.UsuarioCreate.t) :
  tables_created db = true ->
  In u (usuarios db) ->
  schemas.UsuarioCreate.username usuario = models.Usuario.username u ->
  create_usuario pch usuario (open_session db)
  = (Raise (ValueError ("Usuário '" ++ schemas.UsuarioCreate.username usuario
                        ++ "' já existe.")%string),
     mkState db [] None [SELECT "usuarios"] []).
Proof.
  intros Ht Hin Hun. on_tables db Ht.
  destruct (find (fun x => models.Usuario.username x
                           =? schemas.UsuarioCreate.username usuario)%string us)
    as [w|] eqn:E.
  - evaluate. rewrite E. reflexivity.
  - exfalso. apply (find_none _ _ E) in Hin. rewrite Hun in Hin.
    now rewrite String.eqb_refl in Hin.
Qed.

(** The endpoint inserts without a check: on a stored username the commit
    fails in the engine, the [IntegrityError] is not caught, and the
    framework answers 500.  Nothing is stored. *)
Lemma criar_usuario_duplicate gph (db : DB) (u : models.Usuario.t)
      (usuario : schemas.UsuarioCreate.t) :
  tables_created db = true ->
  In u (usuarios db) ->
  schemas.UsuarioCreate.username usuario = models.Usuario.username u ->
  criar_usuario gph usuario (open_session db)
  = (Raise (IntegrityError (UniqueViolation "usuarios.username")),
     mkState db
       [AddUsuario (schemas.UsuarioCreate.username usuario)
                   (gph (schemas.UsuarioCreate.password usuario))]
       None [INSERT "usuarios"] []).
Proof.
  intros Ht Hin Hun. on_tables db Ht.
  assert (E : existsb (fun x => models.Usuario.username x
                                =? schemas.UsuarioCreate.username usuario)%string
                      us = true).
  { apply existsb_exists. exists u. split; [assumption|].
    rewrite Hun. apply String.eqb_refl. }
  evaluate. cbn [List.app]. evaluate. rewrite E. reflexivity.
Qed.

(** C1. At the user-creation endpoint a request whose username is already
    stored is not turned into a duplicate signal: with "bob" stored, a
    second request for "bob" ends in an uncaught [IntegrityError], which is
    answered with 500 "Internal Server Error"; the user table is left as it
    was.  The data-access function [create_usuario], on the same input,
    raises the duplicate error. *)
Theorem criar_usuario_duplicate_unhandled :
  forall pch gph vp cat minutes,
    let usuario := schemas.UsuarioCreateBody.Build (Some "bob") (Some "other") in
    fst (app gph vp cat minutes (POST_usuarios usuario) fleet_db)
    = mkResponse 500 [] (JStr "Internal Server Error")
    /\ store (snd (app gph vp cat minutes (POST_usuarios usuario) fleet_db))
       = fleet_db
    /\ fst (criar_usuario gph (schemas.UsuarioCreate.Build "bob" "other")
                          (open_session fleet_db))
       = Raise (IntegrityError (UniqueViolation "usuarios.username"))
    /\ fst (create_usuario pch (schemas.UsuarioCreate.Build "bob" "other")
                           (open_session fleet_db))
       = Raise (ValueError "Usuário 'bob' já existe.").
Proof.
  intros pch gph vp cat minutes usuario. repeat split.
Qed.

(** ** Validation *)

Lemma VeiculoCreate_validate_errors (b : schemas.VeiculoCreateBody.t) :
  schemas.VeiculoCreate_errors b <> [] ->
  schemas.VeiculoCreate_validate b = inl (schemas.VeiculoCreate_errors b).
Proof.
  unfold schemas.VeiculoCreate_validate.
  destruct (schemas.VeiculoCreate_errors b); [congruence|reflexivity].
Qed.

Lemma rejected_before_storage (b : schemas.VeiculoCreateBody.t) (db : DB) :
  schemas.VeiculoCreate_errors b <> [] ->
  exists errs,
    errs <> []
    /\ post_veiculos b db = (unprocessable errs, open_session db).
Proof.
  intros H. exists (schemas.VeiculoCreate_errors b). split; [exact H|].
  unfold post_veiculos. now rewrite VeiculoCreate_validate_errors.
Qed.

(** C5. A vehicle-creation body that carries brand, model, year and plate is
    refused when the year is below 1886, or the plate is not 7 characters
    long, or a status is supplied that is outside the vocabulary; the refusal
    comes from validation alone: the session has sent nothing to the engine,
    staged nothing, and the database is as it was.  In every other case
    validation accepts the body, a missing status being read as
    DESCONECTADO. *)
Theorem VeiculoCreate_validation :
  forall (db : DB) (marca modelo : string) (ano : Z) (placa : string)
         (status : option string),
    let body :=
      schemas.VeiculoCreateBody.Build (Some marca) (Some modelo) (Some ano)
                                      (Some placa) status in
    let refused :=
      ano < 1886
      \/ String.length placa <> 7%nat
      \/ (exists s, status = Some s /\ ~ In s status_vocabulary) in
    (refused ->
     exists errs,
       errs <> []
       /\ post_veiculos body db = (unprocessable errs, open_session db))
    /\ (~ refused ->
        schemas.VeiculoCreate_validate body
        = inr (schemas.VeiculoCreate.Build marca modelo ano placa
                 match status with
                 | Some s => s
                 | None => "DESCONECTADO"
                 end)).
Proof.
  intros db ma mo an pl st body refused. subst body refused. split.
  - intros H. apply rejected_before_storage.
    unfold schemas.VeiculoCreate_errors; simpl.
    destruct H as [H | [H | [s [-> H]]]].
    + apply Z.leb_gt in H. now rewrite H.
    + apply Nat.eqb_neq in H. rewrite H.
      destruct (1886 <=? an); discriminate.
    + apply status_ok_not_In in H. rewrite H.
      destruct (1886 <=? an), (String.length pl =? 7)%nat; discriminate.
  - intros H. unfold schemas.VeiculoCreate_validate,
      schemas.VeiculoCreate_errors; simpl.
    destruct (1886 <=? an) eqn:Ea.
    2:{ exfalso. apply H. left. now apply Z.leb_gt. }
    destruct (String.length pl =? 7)%nat eqn:Ep.
    2:{ exfalso. apply H. right. left. now apply Nat.eqb_neq. }
    destruct st as [s|]; [|reflexivity].
    destruct (status_ok s) eqn:Es; [reflexivity|].
    exfalso. apply H. right. right. exists s. split; [reflexivity|].
    intros Hin. apply status_ok_In in Hin. congruence.
Qed.

(** C3, amended.  A vehicle-creation body in which brand or model
    is absent, and a user-creation body in which username or password is
    absent, is refused by validation before the session sends anything to the
    engine.  A brand and a model that are present are accepted whatever text
    they hold, the empty text included: neither is ever named in the error
    report, and when year, plate and status pass their rules the body is
    validated with brand and model as sent and the handler answers.  A user
    body whose username and password are present and not empty is validated
    as sent and the handler answers.  Nothing is said of a username or a
    password that is present and empty. *)
Theorem missing_text_is_rejected :
  forall gph (db : DB) (veiculo : schemas.VeiculoCreateBody.t)
         (usuario : schemas.UsuarioCreateBody.t),
    (schemas.VeiculoCreateBody.marca veiculo = None
     \/ schemas.VeiculoCreateBody.modelo veiculo = None ->
     exists errs,
       errs <> []
       /\ post_veiculos veiculo db = (unprocessable errs, open_session db))
    /\ (schemas.UsuarioCreateBody.username usuario = None
        \/ schemas.UsuarioCreateBody.password usuario = None ->
        exists errs,
          errs <> []
          /\ post_usuarios gph usuario db
             = (unprocessable errs, open_session db))
    /\ (forall ma mo,
          schemas.VeiculoCreateBody.marca veiculo = Some ma ->
          schemas.VeiculoCreateBody.modelo veiculo = Some mo ->
          ~ In "marca" (schemas.VeiculoCreate_errors veiculo)
          /\ ~ In "modelo" (schemas.VeiculoCreate_errors veiculo)
          /\ forall an pl,
               schemas.VeiculoCreateBody.ano veiculo = Some an ->
               1886 <= an ->
               schemas.VeiculoCreateBody.placa veiculo = Some pl ->
               String.length pl = 7%nat ->
               (forall s, schemas.VeiculoCreateBody.status veiculo = Some s ->
                          In s status_vocabulary) ->
               let accepted :=
                 schemas.VeiculoCreate.Build ma mo an pl
                   match schemas.VeiculoCreateBody.status veiculo with
                   | Some s => s
                   | None => "DESCONECTADO"
                   end in
               schemas.VeiculoCreate_validate veiculo = inr accepted
               /\ post_veiculos veiculo db
                  = serve schemas.Veiculo (criar_veiculo accepted) db)
    /\ (forall u p,
          schemas.UsuarioCreateBody.username usuario = Some u ->
          schemas.UsuarioCreateBody.password usuario = Some p ->
          u <> "" -> p <> "" ->
          schemas.UsuarioCreate_validate usuario
          = inr (schemas.UsuarioCreate.Build u p)
          /\ post_usuarios gph usuario db
             = serve schemas.Usuario
                     (criar_usuario gph (schemas.UsuarioCreate.Build u p)) db).
Proof.
  intros gph db veiculo usuario. split; [|split; [|split]].
  - intros H. apply rejected_before_storage.
    unfold schemas.VeiculoCreate_errors.
    destruct H as [-> | ->]; simpl.
    + discriminate.
    + destruct (schemas.VeiculoCreateBody.marca veiculo); discriminate.
  - intros H. exists (schemas.UsuarioCreate_errors usuario).
    unfold post_usuarios, schemas.UsuarioCreate_validate,
      schemas.UsuarioCreate_errors.
    destruct H as [-> | ->]; simpl.
    + split; [discriminate|reflexivity].
    + destruct (schemas.UsuarioCreateBody.username usuario); simpl;
        (split; [discriminate|reflexivity]).
  - intros ma mo Hma Hmo.
    destruct veiculo as [bma bmo ban bpl bst]; simpl in *. subst bma bmo.
    assert (Hreport : forall field,
               In field (schemas.VeiculoCreate_errors
                           (schemas.VeiculoCreateBody.Build
                              (Some ma) (Some mo) ban bpl bst)) ->
               field = "ano" \/ field = "placa" \/ field = "status").
    { intros field. unfold schemas.VeiculoCreate_errors; simpl.
      rewrite !in_app_iff. intros [H | [H | H]].
      - left. destruct ban as [a|]; [destruct (1886 <=? a)|];
          simpl in H; intuition congruence.
      - right; left.
        destruct bpl as [q|]; [destruct (String.length q =? 7)%nat|];
          simpl in H; intuition congruence.
      - right; right. destruct bst as [s|]; [destruct (status_ok s)|];
          simpl in H; intuition congruence. }
    split; [|split].
    + intros H. apply Hreport in H.
      destruct H as [H | [H | H]]; discriminate.
    + intros H. apply Hreport in H.
      destruct H as [H | [H | H]]; discriminate.
    + intros an pl -> Han -> Hpl Hst. cbv zeta.
      assert (Hv : schemas.VeiculoCreate_validate
                     (schemas.VeiculoCreateBody.Build
                        (Some ma) (Some mo) (Some an) (Some pl) bst)
                   = inr (schemas.VeiculoCreate.Build ma mo an pl
                            match bst with
                            | Some s => s
                            | None => "DESCONECTADO"
                            end)).
      { unfold schemas.VeiculoCreate_validate, schemas.VeiculoCreate_errors;
          simpl.
        apply Z.leb_le in Han. rewrite Han.
        apply Nat.eqb_eq in Hpl. rewrite Hpl.
        destruct bst as [s|]; [|reflexivity].
        assert (Hs : status_ok s = true)
          by (apply status_ok_In, Hst; reflexivity).
        now rewrite Hs. }
      split; [exact Hv|]. unfold post_veiculos. now rewrite Hv.
  - intros u p Hu Hp _ _.
    unfold post_usuarios, schemas.UsuarioCreate_validate.
    rewrite Hu, Hp. split; reflexivity.
Qed.

(** ** Authentication *)

(** C6. A login with a username that matches no stored user and a login
    with a stored username whose password fails verification are answered
    alike: the same 401, the same detail, the same challenge header, and the
    same trace in the session. *)
Theorem login_rejections_indistinguishable :
  forall vp cat minutes (db : DB) (u1 p1 u2 p2 : string),
    tables_created db = true ->
    (forall x, In x (usuarios db) -> models.Usuario.username x <> u1) ->
    (exists x, In x (usuarios db) /\ models.Usuario.username x = u2) ->
    (forall x, In x (usuarios db) -> models.Usuario.username x = u2 ->
               vp p2 (models.Usuario.hashed_password x) = false) ->
    serve schemas.Token (login_for_access_token vp cat minutes u1 p1) db
    = serve schemas.Token (login_for_access_token vp cat minutes u2 p2) db
    /\ fst (serve schemas.Token (login_for_access_token vp cat minutes u1 p1) db)
       = unauthorized.
Proof.
  intros vp cat minutes db u1 p1 u2 p2 Ht Habs [x [Hx Hux]] Hfail.
  on_tables db Ht.
  assert (E1 : find (fun u => models.Usuario.username u =? u1)%string us = None).
  { apply find_absent. intros y Hy. apply String.eqb_neq. now apply Habs. }
  destruct (find (fun u => models.Usuario.username u =? u2)%string us)
    as [w|] eqn:E2.
  - apply find_some in E2 as E2'. destruct E2' as [Hw Hwu].
    apply String.eqb_eq in Hwu. specialize (Hfail w Hw Hwu).
    evaluate. rewrite E1, E2. evaluate. rewrite Hfail. split; reflexivity.
  - exfalso. apply (find_none _ _ E2) in Hx. rewrite Hux in Hx.
    now rewrite String.eqb_refl in Hx.
Qed.

(** ** What responses carry *)

Lemma redact_usernames (n : string) (us : list models.Usuario.t) :
  existsb (fun u => models.Usuario.username u =? n)%string
          (map (fun u => models.Usuario.Build (models.Usuario.id u)
                           (models.Usuario.username u) "") us)
  = existsb (fun u => models.Usuario.username u =? n)%string us.
Proof.
  induction us as [|a us IH]; [reflexivity|]. simpl. now rewrite IH.
Qed.

Lemma redact_ids (us : list models.Usuario.t) :
  map models.Usuario.id
      (map (fun u => models.Usuario.Build (models.Usuario.id u)
                       (models.Usuario.username u) "") us)
  = map models.Usuario.id us.
Proof. rewrite map_map. now apply map_ext. Qed.

Lemma find_inserted_usuario (us : list models.Usuario.t) (n h : string) :
  find (fun x => models.Usuario.id x =? next_id (map models.Usuario.id us))
       (us ++ [models.Usuario.Build (next_id (map models.Usuario.id us)) n h])
  = Some (models.Usuario.Build (next_id (map models.Usuario.id us)) n h).
Proof.
  assert (H : forall k, (forall x, In x us -> models.Usuario.id x <> k) ->
              find (fun x => models.Usuario.id x =? k)
                   (us ++ [models.Usuario.Build k n h])
              = Some (models.Usuario.Build k n h)).
  { intros k. induction us as [|a us IH]; intros Hk; simpl.
    - now rewrite Z.eqb_refl.
    - destruct (models.Usuario.id a =? k) eqn:E.
      + apply Z.eqb_eq in E. exfalso. apply (Hk a); [now left | exact E].
      + apply IH. intros x Hx. apply Hk. now right. }
  apply H. intros x Hx E.
  apply (next_id_fresh (map models.Usuario.id us)). rewrite <- E.
  now apply in_map.
Qed.

(** The answer of the user-creation endpoint to a body with both texts. *)
Lemma criar_usuario_answer gph vp cat minutes (db : DB) (u p : string) :
  fst (app gph vp cat minutes
           (POST_usuarios (schemas.UsuarioCreateBody.Build (Some u) (Some p)))
           db)
  = if tables_created db
       && negb (existsb (fun x => models.Usuario.username x =? u)%string
                        (usuarios db))
    then mkResponse 200 []
           (JObj [("username", JStr u);
                  ("id", JInt (next_id (map models.Usuario.id (usuarios db))))])
    else internal_error.
Proof.
  destruct db as [[|] vs us]; [|reflexivity].
  evaluate. cbn [List.app]. evaluate.
  destruct (existsb _ us) eqn:E; [reflexivity|].
  evaluate. rewrite find_inserted_usuario. reflexivity.
Qed.

(** Evaluation that splits on what the tables hold. *)
Ltac by_cases :=
  repeat (evaluate; cbn [List.app]; try reflexivity;
          match goal with
          | |- context [if status_ok ?s then _ else _] =>
              destruct (status_ok s) eqn:?
          | |- context [match find ?p ?l with _ => _ end] =>
              destruct (find p l) eqn:?
          | |- context [if existsb ?p ?l then _ else _] =>
              destruct (existsb p l) eqn:?
          end).

(** C8. No answer carries a password.  The user-creation endpoint answers
    either the plain 500 or an object with exactly the fields [username] and
    [id], and its answer is the same whatever password was sent.  The token
    endpoint answers the fixed 401, the plain 500, or a token made from the
    username alone.  The answer of every other endpoint is the same on the
    database whose stored hashes are all blanked out. *)
Theorem password_never_in_response :
  forall gph vp cat minutes (db : DB),
    (forall u p,
        let r := fst (app gph vp cat minutes
                       (POST_usuarios
                          (schemas.UsuarioCreateBody.Build (Some u) (Some p)))
                       db) in
        r = internal_error
        \/ exists k,
            r = mkResponse 200 [] (JObj [("username", JStr u); ("id", JInt k)])
            /\ keys (body r) = ["username"; "id"])
    /\ (forall u p p',
           fst (app gph vp cat minutes
                  (POST_usuarios
                     (schemas.UsuarioCreateBody.Build (Some u) (Some p))) db)
           = fst (app gph vp cat minutes
                    (POST_usuarios
                       (schemas.UsuarioCreateBody.Build (Some u) (Some p')))
                    db))
    /\ (forall u p,
           let r := fst (app gph vp cat minutes (POST_token u p) db) in
           r = unauthorized
           \/ r = internal_error
           \/ r = mkResponse 200 []
                    (schemas.Token
                       (schemas.Token.Build (cat u minutes) "bearer")))
    /\ (forall req,
           match req with
           | POST_token _ _ => True
           | _ => fst (app gph vp cat minutes req db)
                  = fst (app gph vp cat minutes req (redact db))
           end).
Proof.
  intros gph vp cat minutes db. repeat apply conj.
  - intros u p r. subst r. rewrite criar_usuario_answer.
    destruct (tables_created db && _); [right | now left].
    eexists. split; reflexivity.
  - intros u p p'. now rewrite !criar_usuario_answer.
  - intros u p r. subst r. destruct db as [[|] vs us].
    + destruct (find (fun x => models.Usuario.username x =? u)%string us)
        as [w|] eqn:E.
      * apply find_some in E as E'. destruct E' as [_ Hw].
        apply String.eqb_eq in Hw.
        destruct (vp p (models.Usuario.hashed_password w)) eqn:V.
        -- right. right. evaluate. rewrite E. evaluate. rewrite V.
           now rewrite Hw.
        -- left. evaluate. rewrite E. evaluate. now rewrite V.
      * left. evaluate. now rewrite E.
    + right. left. reflexivity.
  - intros req. destruct req as [u p | b | | | b | k | k st | k].
    + exact I.
    + destruct b as [[u|] [p|]]; try reflexivity.
      rewrite !criar_usuario_answer. unfold redact. simpl.
      now rewrite redact_usernames, redact_ids.
    + reflexivity.
    + destruct db as [[|] vs us]; reflexivity.
    + unfold app, post_veiculos.
      destruct (schemas.VeiculoCreate_validate b) as [errs|t]; [reflexivity|].
      destruct db as [[|] vs us]; unfold criar_veiculo; by_cases.
    + destruct db as [[|] vs us]; by_cases.
    + destruct db as [[|] vs us]; unfold atualizar_status; by_cases.
    + destruct db as [[|] vs us]; by_cases.
Qed.

(** ** Operator CLI *)

(** C9. The create action without a username or without a password, and the
    delete action without a username, print their message and return with
    the session untouched: nothing was sent to the engine and the database
    is as it was.  Whatever exception the action raises, [main] prints the
    generic error line with the exception's text and returns normally; in
    every case [main] returns normally. *)
Theorem cli_missing_arguments_and_errors :
  forall pch text (args : Args) (db : DB),
    (action args = action_create ->
     truthy (username args) = None \/ truthy (password args) = None ->
     main pch text args db
     = (Ok tt,
        mkState db [] None []
          ["Usuário e senha são necessários para criar um novo usuário."]))
    /\ (action args = action_delete ->
        truthy (username args) = None ->
        main pch text args db
        = (Ok tt,
           mkState db [] None []
             ["Nome de usuário é necessário para excluir um usuário."]))
    /\ (forall e s,
           main_action pch args (open_session db) = (Raise e, s) ->
           main pch text args db
           = (Ok tt,
              mkState (store s) [] (lastrowid s) (log s)
                      (stdout s ++ ["Ocorreu um erro: " ++ str text e]%string)))
    /\ fst (main pch text args db) = Ok tt.
Proof.
  intros pch text args db. repeat apply conj.
  - intros Ha H. unfold main, try_except, main_action. rewrite Ha.
    destruct H as [-> | ->]; [reflexivity|].
    now destruct (truthy (username args)).
  - intros Ha H. unfold main, try_except, main_action. rewrite Ha, H.
    reflexivity.
  - intros e s H. unfold main, try_except. rewrite H. reflexivity.
  - unfold main, try_except.
    destruct (main_action pch args (open_session db)) as [[[] | e] s];
      reflexivity.
Qed.

(** * The theorems at concrete inputs *)

Lemma status_INVALIDO_outside : ~ In "INVALIDO" status_vocabulary.
Proof. intros [H | [H | []]]; discriminate. Qed.

(** Counterexample to C3 as stated: bodies whose texts are empty pass
    validation, the handlers run, and the rows are stored. *)
Lemma empty_text_is_accepted :
  (schemas.VeiculoCreate_validate nameless_veiculo
   = inr (schemas.VeiculoCreate.Build "" "" 2022 "ABC1234" "DESCONECTADO")
   /\ status_code (fst (post_veiculos nameless_veiculo empty_db)) = 200
   /\ log (snd (post_veiculos nameless_veiculo empty_db))
      = [INSERT "veiculos"; COMMIT; SELECT "veiculos"]
   /\ veiculos (store (snd (post_veiculos nameless_veiculo empty_db)))
      = [models.Veiculo.Build 1 "" "" 2022 "ABC1234" "DESCONECTADO"])
  /\ (schemas.UsuarioCreate_validate nameless_usuario
      = inr (schemas.UsuarioCreate.Build "" "")
      /\ status_code (fst (post_usuarios toy_hash nameless_usuario empty_db))
         = 200
      /\ log (snd (post_usuarios toy_hash nameless_usuario empty_db))
         = [INSERT "usuarios"; COMMIT; SELECT "usuarios"]
      /\ usuarios (store (snd (post_usuarios toy_hash nameless_usuario empty_db)))
         = [models.Usuario.Build 1 "" (toy_hash "")]).
Proof. repeat split. Qed.

Lemma missing_text_is_rejected_witness :
  (exists errs,
      errs <> []
      /\ post_veiculos
           (schemas.VeiculoCreateBody.Build None (Some "Uno") (Some 2022)
                                            (Some "ABC1234") None)
           fleet_db
         = (unprocessable errs, open_session fleet_db))
  /\ (exists errs,
         errs <> []
         /\ post_usuarios toy_hash
              (schemas.UsuarioCreateBody.Build (Some "ana") None) fleet_db
            = (unprocessable errs, open_session fleet_db))
  /\ schemas.VeiculoCreate_validate nameless_veiculo
     = inr (schemas.VeiculoCreate.Build "" "" 2022 "ABC1234" "DESCONECTADO")
  /\ schemas.UsuarioCreate_validate
       (schemas.UsuarioCreateBody.Build (Some "ana") (Some "s3nha"))
     = inr (schemas.UsuarioCreate.Build "ana" "s3nha").
Proof.
  split; [|split; [|split]].
  - apply (missing_text_is_rejected toy_hash fleet_db
             (schemas.VeiculoCreateBody.Build None (Some "Uno") (Some 2022)
                                              (Some "ABC1234") None)
             nameless_usuario).
    left. reflexivity.
  - apply (missing_text_is_rejected toy_hash fleet_db nameless_veiculo
             (schemas.UsuarioCreateBody.Build (Some "ana") None)).
    right. reflexivity.
  - destruct (missing_text_is_rejected toy_hash fleet_db nameless_veiculo
                nameless_usuario) as [_ [_ [H _]]].
    destruct (H "" "" eq_refl eq_refl) as [_ [_ Hok]].
    apply (Hok 2022 "ABC1234" eq_refl ltac:(lia) eq_refl eq_refl).
    intros s Hs. discriminate Hs.
  - destruct (missing_text_is_rejected toy_hash fleet_db nameless_veiculo
                (schemas.UsuarioCreateBody.Build (Some "ana") (Some "s3nha")))
      as [_ [_ [_ H]]].
    apply (H "ana" "s3nha" eq_refl eq_refl); discriminate.
Defined.

Lemma plate_never_duplicated_witness :
  plates_unique empty_db
  /\ plates_unique
       (run toy_hash toy_hash toy_verify toy_token 30 toy_text empty_db
            sample_history)
  /\ fst (serve schemas.Veiculo (criar_veiculo uno_request)
            (run toy_hash toy_hash toy_verify toy_token 30 toy_text empty_db
                 sample_history))
     = mkResponse 400 [] (JObj [("detail", JStr "Placa já registrada.")]).
Proof.
  assert (H0 : plates_unique empty_db) by constructor.
  split; [exact H0|].
  destruct (plate_never_duplicated toy_hash toy_hash toy_verify toy_token 30
              toy_text empty_db sample_history H0) as [Hu Hdup].
  split; [exact Hu|].
  destruct (Hdup (models.Veiculo.set_status "DESCONECTADO" uno) uno_request)
    as [H _].
  - reflexivity.
  - left. reflexivity.
  - reflexivity.
  - left. reflexivity.
  - rewrite H. reflexivity.
Defined.

Lemma atualizar_status_rejects_invalid_status_witness :
  ~ In "INVALIDO" status_vocabulary
  /\ serve schemas.Veiculo (atualizar_status 1 "INVALIDO") fleet_db
     = (invalid_status, open_session fleet_db).
Proof.
  split; [exact status_INVALIDO_outside|].
  apply (atualizar_status_rejects_invalid_status fleet_db 1 "INVALIDO").
  exact status_INVALIDO_outside.
Defined.

Lemma VeiculoCreate_validation_witness :
  (exists errs,
      errs <> []
      /\ post_veiculos
           (schemas.VeiculoCreateBody.Build (Some "Ford") (Some "T")
              (Some 1885) (Some "ABC1234") None) fleet_db
         = (unprocessable errs, open_session fleet_db))
  /\ schemas.VeiculoCreate_validate
       (schemas.VeiculoCreateBody.Build (Some "Ford") (Some "T")
          (Some 1908) (Some "ABC1234") None)
     = inr (schemas.VeiculoCreate.Build "Ford" "T" 1908 "ABC1234"
                                        "DESCONECTADO").
Proof.
  split.
  - apply (VeiculoCreate_validation fleet_db "Ford" "T" 1885 "ABC1234" None).
    left. lia.
  - apply (VeiculoCreate_validation fleet_db "Ford" "T" 1908 "ABC1234" None).
    intros [H | [H | [s [H _]]]]; [lia | apply H; reflexivity | discriminate].
Defined.

Lemma login_rejections_indistinguishable_witness :
  serve schemas.Token
        (login_for_access_token toy_verify toy_token 30 "alice" "secret")
        fleet_db
  = serve schemas.Token
          (login_for_access_token toy_verify toy_token 30 "bob" "wrong")
          fleet_db
  /\ fst (serve schemas.Token
            (login_for_access_token toy_verify toy_token 30 "alice" "secret")
            fleet_db)
     = unauthorized.
Proof.
  apply (login_rejections_indistinguishable toy_verify toy_token 30 fleet_db
           "alice" "secret" "bob" "wrong").
  - reflexivity.
  - intros x [<- | []]. discriminate.
  - exists bob. split; [left|]; reflexivity.
  - intros x [<- | []] _. reflexivity.
Defined.

Lemma absent_vehicle_is_not_found_witness :
  fst (serve schemas.Veiculo (obter_veiculo 999) fleet_db) = not_found
  /\ store (snd (serve schemas.Veiculo (obter_veiculo 999) fleet_db))
     = fleet_db.
Proof.
  apply (absent_vehicle_is_not_found fleet_db 999 "CONNECTADO").
  - reflexivity.
  - intros v [<- | [<- | []]]; discriminate.
  - left. reflexivity.
Defined.

Lemma cli_missing_arguments_and_errors_witness :
  main toy_hash toy_text (mkArgs action_create (Some "alice") None) fleet_db
  = (Ok tt,
     mkState fleet_db [] None []
       ["Usuário e senha são necessários para criar um novo usuário."])
  /\ main toy_hash toy_text (mkArgs action_list None None) fresh_file
     = (Ok tt,
        mkState fresh_file [] None [SELECT "usuarios"]
          ["Ocorreu um erro: no such table: usuarios"]).
Proof.
  split.
  - apply (cli_missing_arguments_and_errors toy_hash toy_text
             (mkArgs action_create (Some "alice") None) fleet_db).
    + reflexivity.
    + right. reflexivity.
  - destruct (cli_missing_arguments_and_errors toy_hash toy_text
                (mkArgs action_list None None) fresh_file)
      as [_ [_ [Hexn _]]].
    apply (Hexn (OperationalError (NoSuchTable "usuarios"))
                (mkState fresh_file [] None [SELECT "usuarios"] [])).
    reflexivity.
Defined.

Lemma atualizar_status_changes_only_status_witness :
  fst (serve schemas.Veiculo (atualizar_status 1 "DESCONECTADO") fleet_db)
  = mkResponse 200 []
      (schemas.Veiculo (models.Veiculo.set_status "DESCONECTADO" uno))
  /\ store (snd (serve schemas.Veiculo (atualizar_status 1 "DESCONECTADO")
                   fleet_db))
     = mkDB true [models.Veiculo.set_status "DESCONECTADO" uno; gol] [bob].
Proof.
  destruct (atualizar_status_changes_only_status fleet_db uno "DESCONECTADO")
    as [Hr [_ [Hv [Hu Ht]]]].
  - reflexivity.
  - repeat constructor; simpl; intuition discriminate.
  - left. reflexivity.
  - right. left. reflexivity.
  - split; [exact Hr|]. reflexivity.
Defined.

(** * Further properties of the code *)

(** ** Constraints of the tables along every history *)

Lemma username_not_stored (n : string) (us : list models.Usuario.t) :
  existsb (fun u => models.Usuario.username u =? n)%string us = false ->
  ~ In n (map models.Usuario.username us).
Proof.
  intros H Hin. apply in_map_iff in Hin as [u [Hu Hin]].
  assert (E : existsb (fun u => models.Usuario.username u =? n)%string us = true).
  { apply existsb_exists. exists u. split; [assumption|].
    now apply String.eqb_eq. }
  congruence.
Qed.

Lemma apply_change_usernames_unique (c : change) (db db' : DB) (o : option Z) :
  apply_change c db = inr (db', o) -> usernames_unique db -> usernames_unique db'.
Proof.
  unfold apply_change, usernames_unique.
  destruct (tables_created db); simpl; [|discriminate].
  destruct c as [ma mo an pl st | un hp | k st | k | k]; intros H Hu.
  - destruct (status_ok st); simpl in H; [|discriminate].
    destruct (existsb _ (veiculos db)); [discriminate|].
    now inversion H; subst.
  - destruct (existsb _ (usuarios db)) eqn:E; [discriminate|].
    inversion H; subst; simpl. rewrite map_app. simpl.
    apply NoDup_snoc; [assumption | now apply username_not_stored].
  - destruct (status_ok st); simpl in H; [|discriminate].
    now inversion H; subst.
  - now inversion H; subst.
  - inversion H; subst; simpl. now apply delete_keeps_distinct.
Qed.

Lemma apply_change_statuses_valid (c : change) (db db' : DB) (o : option Z) :
  apply_change c db = inr (db', o) -> statuses_valid db -> statuses_valid db'.
Proof.
  unfold apply_change, statuses_valid.
  destruct (tables_created db); simpl; [|discriminate].
  destruct c as [ma mo an pl st | un hp | k st | k | k]; intros H Hv.
  - destruct (status_ok st) eqn:Est; simpl in H; [|discriminate].
    destruct (existsb _ (veiculos db)); [discriminate|].
    inversion H; subst; simpl. apply Forall_app. split; [assumption|].
    constructor; [|constructor]. now apply status_ok_In.
  - destruct (existsb _ (usuarios db)); [discriminate|].
    now inversion H; subst.
  - destruct (status_ok st) eqn:Est; simpl in H; [|discriminate].
    inversion H; subst; simpl. apply Forall_forall. intros x Hx.
    apply in_map_iff in Hx as [v [<- Hin]].
    destruct (models.Veiculo.id v =? k).
    + now apply status_ok_In.
    + rewrite Forall_forall in Hv. now apply Hv.
  - inversion H; subst; simpl. apply Forall_forall. intros x Hx.
    apply filter_In in Hx as [Hx _]. rewrite Forall_forall in Hv. now apply Hv.
  - now inversion H; subst.
Qed.

(** Whatever requests and CLI runs are made, every stored vehicle has a
    status of the vocabulary. *)
Theorem statuses_valid_along_history :
  forall pch gph vp cat minutes text (db : DB) (history : list Event),
    statuses_valid db ->
    statuses_valid (run pch gph vp cat minutes text db history).
Proof.
  intros pch gph vp cat minutes text db history.
  apply run_keeps; [apply apply_change_statuses_valid | now intros d].
Qed.

(** Whatever requests and CLI runs are made, no two stored users share a
    username. *)
Theorem usernames_unique_along_history :
  forall pch gph vp cat minutes text (db : DB) (history : list Event),
    usernames_unique db ->
    usernames_unique (run pch gph vp cat minutes text db history).
Proof.
  intros pch gph vp cat minutes text db history.
  apply run_keeps; [apply apply_change_usernames_unique | now intros d].
Qed.

(** Whatever requests and CLI runs are made, no two stored vehicles share an
    id. *)
Theorem veiculo_ids_unique_along_history :
  forall pch gph vp cat minutes text (db : DB) (history : list Event),
    veiculo_ids_unique db ->
    veiculo_ids_unique (run pch gph vp cat minutes text db history).
Proof.
  intros pch gph vp cat minutes text db history.
  apply run_keeps; [apply apply_change_ids_unique | now intros d].
Qed.

(** ** Creating, reading and deleting vehicles *)

Lemma existsb_as_find {A} (p : A -> bool) (l : list A) :
  existsb p l = match find p l with Some _ => true | None => false end.
Proof.
  induction l as [|a l IH]; [reflexivity|]. simpl. now destruct (p a).
Qed.

Lemma plate_free (pl : string) (vs : list models.Veiculo.t) :
  (forall v, In v vs -> models.Veiculo.placa v <> pl) ->
  existsb (fun v => models.Veiculo.placa v =? pl)%string vs = false.
Proof.
  intros H. rewrite existsb_as_find, find_absent; [reflexivity|].
  intros v Hv. apply String.eqb_neq. now apply H.
Qed.

Lemma find_appended {A} (p : A -> bool) (l : list A) (x : A) :
  (forall y, In y l -> p y = false) -> p x = true ->
  find p (l ++ [x]) = Some x.
Proof.
  intros Hl Hx. induction l as [|a l IH]; simpl.
  - now rewrite Hx.
  - rewrite (Hl a (or_introl eq_refl)). apply IH. intros y Hy. apply Hl.
    now right.
Qed.

Lemma find_inserted_veiculo (vs : list models.Veiculo.t)
      (veiculo : schemas.VeiculoCreate.t) :
  find (fun x => models.Veiculo.id x =? next_id (map models.Veiculo.id vs))
       (vs ++ [veiculo_row (next_id (map models.Veiculo.id vs)) veiculo])
  = Some (veiculo_row (next_id (map models.Veiculo.id vs)) veiculo).
Proof.
  apply find_appended.
  - intros y Hy. apply Z.eqb_neq. intros E.
    apply (next_id_fresh (map models.Veiculo.id vs)). rewrite <- E.
    now apply in_map.
  - apply Z.eqb_refl.
Qed.

(** What a successful create does, as one equation. *)
Lemma criar_veiculo_run (vs : list models.Veiculo.t)
      (us : list models.Usuario.t) (veiculo : schemas.VeiculoCreate.t) :
  status_ok (schemas.VeiculoCreate.status veiculo) = true ->
  existsb (fun v => models.Veiculo.placa v
                    =? schemas.VeiculoCreate.placa veiculo)%string vs = false ->
  serve schemas.Veiculo (criar_veiculo veiculo) (mkDB true vs us)
  = (mkResponse 200 []
       (schemas.Veiculo
          (veiculo_row (next_id (map models.Veiculo.id vs)) veiculo)),
     mkState
       (mkDB true
          (vs ++ [veiculo_row (next_id (map models.Veiculo.id vs)) veiculo])
          us)
       [] (Some (next_id (map models.Veiculo.id vs)))
       [INSERT "veiculos"; COMMIT; SELECT "veiculos"] []).
Proof.
  intros Hst Hfree. unfold criar_veiculo. rewrite Hst.
  evaluate. cbn [List.app]. evaluate. rewrite Hst, Hfree. evaluate.
  pose proof (find_inserted_veiculo vs veiculo) as F.
  unfold veiculo_row in *. rewrite F. reflexivity.
Qed.

(** A create request that passed validation, on a plate that is not stored,
    is answered 200 with the request's fields under a fresh id; the database
    gains exactly that row, at the end of the table, and nothing else
    changes. *)
Theorem criar_veiculo_stores_the_request :
  forall (db : DB) (veiculo : schemas.VeiculoCreate.t),
    tables_created db = true ->
    In (schemas.VeiculoCreate.status veiculo) status_vocabulary ->
    (forall v, In v (veiculos db) ->
               models.Veiculo.placa v <> schemas.VeiculoCreate.placa veiculo) ->
    let new := veiculo_row (next_id (map models.Veiculo.id (veiculos db)))
                           veiculo in
    fst (serve schemas.Veiculo (criar_veiculo veiculo) db)
    = mkResponse 200 [] (schemas.Veiculo new)
    /\ store (snd (serve schemas.Veiculo (criar_veiculo veiculo) db))
       = mkDB true (veiculos db ++ [new]) (usuarios db)
    /\ (forall v, In v (veiculos db) ->
                  models.Veiculo.id v <> models.Veiculo.id new).
Proof.
  intros db veiculo Ht Hst Hfree new. subst new.
  apply status_ok_In in Hst. apply plate_free in Hfree.
  on_tables db Ht. rewrite (criar_veiculo_run vs us veiculo Hst Hfree).
  repeat split. intros v Hv E. simpl in E.
  apply (next_id_fresh (map models.Veiculo.id vs)). rewrite <- E.
  now apply in_map.
Qed.

(** Round trip: the vehicle a create request stored is what a read of the
    id in the answer returns, and what a lookup by its plate finds. *)
Theorem created_vehicle_is_retrievable :
  forall (db : DB) (veiculo : schemas.VeiculoCreate.t),
    tables_created db = true ->
    In (schemas.VeiculoCreate.status veiculo) status_vocabulary ->
    (forall v, In v (veiculos db) ->
               models.Veiculo.placa v <> schemas.VeiculoCreate.placa veiculo) ->
    let created := serve schemas.Veiculo (criar_veiculo veiculo) db in
    let new := veiculo_row (next_id (map models.Veiculo.id (veiculos db)))
                           veiculo in
    fst (serve schemas.Veiculo (obter_veiculo (models.Veiculo.id new))
               (store (snd created)))
    = fst created
    /\ fst (get_veiculo_by_placa (schemas.VeiculoCreate.placa veiculo)
                                 (open_session (store (snd created))))
       = Ok (Some new).
Proof.
  intros db veiculo Ht Hst Hfree created new. subst created new.
  apply status_ok_In in Hst.
  pose proof (plate_free _ _ Hfree) as Hfree'.
  on_tables db Ht. rewrite (criar_veiculo_run vs us veiculo Hst Hfree').
  cbn [fst snd store]. split.
  - evaluate. pose proof (find_inserted_veiculo vs veiculo) as F.
    unfold veiculo_row in *. cbn [models.Veiculo.id] in *. rewrite F.
    reflexivity.
  - evaluate. rewrite find_appended; [reflexivity | |].
    + intros y Hy. apply String.eqb_neq. now apply Hfree.
    + apply String.eqb_refl.
Qed.

Lemma find_veiculo_deleted (k : Z) (vs : list models.Veiculo.t) :
  find (fun x => models.Veiculo.id x =? k)
       (filter (fun x => negb (models.Veiculo.id x =? k)) vs) = None.
Proof.
  apply find_absent. intros x Hx. apply filter_In in Hx as [_ Hx].
  now apply negb_true_iff in Hx.
Qed.

(** With a primary key, a deletion by key removes the row itself only. *)
Lemma delete_by_key (v : models.Veiculo.t) (vs : list models.Veiculo.t) :
  NoDup (map models.Veiculo.id vs) -> In v vs ->
  forall x,
    In x (filter (fun y => negb (models.Veiculo.id y =? models.Veiculo.id v)) vs)
    <-> In x vs /\ x <> v.
Proof.
  intros Hnd Hin x. rewrite filter_In, negb_true_iff, Z.eqb_neq. split.
  - intros [Hx Hne]. split; [assumption|]. intros ->. now apply Hne.
  - intros [Hx Hne]. split; [assumption|]. intros E. apply Hne.
    pose proof (find_veiculo_present v vs Hnd Hin) as Fv.
    pose proof (find_veiculo_present x vs Hnd Hx) as Fx.
    rewrite E in Fx. congruence.
Qed.

(** Reading a stored vehicle answers 200 with its six fields and leaves the
    database as it was. *)
Theorem obter_veiculo_returns_the_row :
  forall (db : DB) (v : models.Veiculo.t),
    tables_created db = true ->
    veiculo_ids_unique db ->
    In v (veiculos db) ->
    serve schemas.Veiculo (obter_veiculo (models.Veiculo.id v)) db
    = (mkResponse 200 [] (schemas.Veiculo v),
       mkState db [] None [SELECT "veiculos"] []).
Proof.
  intros db v Ht Hpk Hin. unfold veiculo_ids_unique in Hpk. on_tables db Ht.
  evaluate. rewrite (find_veiculo_present v vs Hpk Hin). reflexivity.
Qed.

(** Deleting a stored vehicle answers 200 with the success message; the row
    is gone, every other vehicle row stays, in order, the user table is
    untouched, and a read of the same id is then answered 404. *)
Theorem excluir_veiculo_removes_the_row :
  forall (db : DB) (v : models.Veiculo.t),
    tables_created db = true ->
    veiculo_ids_unique db ->
    In v (veiculos db) ->
    let after :=
      store (snd (serve (fun j => j)
                        (excluir_veiculo (models.Veiculo.id v)) db)) in
    fst (serve (fun j => j) (excluir_veiculo (models.Veiculo.id v)) db)
    = deleted
    /\ veiculos after
       = filter (fun x => negb (models.Veiculo.id x =? models.Veiculo.id v))
                (veiculos db)
    /\ (forall x, In x (veiculos after) <-> In x (veiculos db) /\ x <> v)
    /\ usuarios after = usuarios db
    /\ fst (serve schemas.Veiculo (obter_veiculo (models.Veiculo.id v)) after)
       = not_found.
Proof.
  intros db v Ht Hpk Hin after. subst after.
  unfold veiculo_ids_unique in Hpk. on_tables db Ht.
  pose proof (find_veiculo_present v vs Hpk Hin) as F.
  assert (E : serve (fun j => j) (excluir_veiculo (models.Veiculo.id v))
                    (mkDB true vs us)
              = (deleted,
                 mkState
                   (mkDB true
                      (filter (fun x => negb (models.Veiculo.id x
                                              =? models.Veiculo.id v)) vs) us)
                   [] None [SELECT "veiculos"; DELETE "veiculos"; COMMIT] [])).
  { evaluate. rewrite F. evaluate. cbn [List.app]. evaluate. reflexivity. }
  rewrite E. cbn [fst snd store veiculos usuarios]. repeat apply conj.
  - reflexivity.
  - reflexivity.
  - now apply delete_by_key.
  - reflexivity.
  - evaluate. rewrite find_veiculo_deleted. reflexivity.
Qed.

Lemma distinct_column {Row Col} (column : Row -> Col) (rows : list Row) :
  NoDup (map column rows) ->
  forall x y, In x rows -> In y rows -> column x = column y -> x = y.
Proof.
  induction rows as [|r rows IH]; intros H x y Hx Hy E; [contradiction|].
  simpl in H. apply NoDup_cons_iff in H as [Hnew H].
  destruct Hx as [-> | Hx], Hy as [-> | Hy].
  - reflexivity.
  - exfalso. apply Hnew. rewrite E. now apply in_map.
  - exfalso. apply Hnew. rewrite <- E. now apply in_map.
  - now apply IH.
Qed.

(** A plate is free again once its vehicle is deleted: the next create
    request with that plate is answered 200. *)
Theorem plate_is_reusable_after_delete :
  forall (db : DB) (v : models.Veiculo.t) (veiculo : schemas.VeiculoCreate.t),
    tables_created db = true ->
    plates_unique db ->
    In v (veiculos db) ->
    schemas.VeiculoCreate.placa veiculo = models.Veiculo.placa v ->
    In (schemas.VeiculoCreate.status veiculo) status_vocabulary ->
    let after :=
      store (snd (serve (fun j => j)
                        (excluir_veiculo (models.Veiculo.id v)) db)) in
    status_code (fst (serve schemas.Veiculo (criar_veiculo veiculo) db)) = 400
    /\ status_code (fst (serve schemas.Veiculo (criar_veiculo veiculo) after))
       = 200.
Proof.
  intros db v veiculo Ht Hpl Hin Hpv Hst after. subst after. split.
  - destruct (criar_veiculo_duplicate db v veiculo Ht Hin Hpv Hst) as [H _].
    now rewrite H.
  - apply status_ok_In in Hst. unfold plates_unique in Hpl. on_tables db Ht.
    assert (F : exists w, find (fun x => models.Veiculo.id x
                                         =? models.Veiculo.id v) vs = Some w
                          /\ models.Veiculo.id w = models.Veiculo.id v).
    { destruct (find (fun x => models.Veiculo.id x =? models.Veiculo.id v) vs)
        as [w|] eqn:E.
      - exists w. split; [reflexivity|]. apply find_some in E as [_ E].
        now apply Z.eqb_eq.
      - apply (find_none _ _ E) in Hin. now rewrite Z.eqb_refl in Hin. }
    destruct F as [w [F Hw]].
    assert (E : store (snd (serve (fun j => j)
                              (excluir_veiculo (models.Veiculo.id v))
                              (mkDB true vs us)))
                = mkDB true
                    (filter (fun x => negb (models.Veiculo.id x
                                            =? models.Veiculo.id v)) vs) us).
    { evaluate. rewrite F. evaluate. cbn [List.app]. evaluate.
      now rewrite Hw. }
    rewrite E. rewrite criar_veiculo_run; [reflexivity | exact Hst |].
    apply plate_free. intros x Hx Ex.
    apply filter_In in Hx as [Hx Hne].
    apply negb_true_iff, Z.eqb_neq in Hne. apply Hne.
    rewrite Hpv in Ex.
    now rewrite (distinct_column models.Veiculo.placa vs Hpl x v Hx Hin Ex).
Qed.

(** ** What reads and the other table's handlers never do *)

(** The read paths leave the database exactly as it was, whether or not
    the tables exist and whatever is asked for: the root and listing
    endpoints, the read of one vehicle, and the lookups and the paged
    listing of the data-access layer. *)
Theorem reads_never_write :
  forall (db : DB) (k skip limit : Z) (text : string),
    store (snd (serve (fun j => j) read_root db)) = db
    /\ store (snd (serve (fun vs => JArr (map schemas.Veiculo vs))
                         listar_veiculos db)) = db
    /\ store (snd (serve schemas.Veiculo (obter_veiculo k) db)) = db
    /\ store (snd (get_veiculo k (open_session db))) = db
    /\ store (snd (get_veiculo_by_placa text (open_session db))) = db
    /\ store (snd (get_veiculos skip limit (open_session db))) = db
    /\ store (snd (get_usuario_by_username text (open_session db))) = db.
Proof.
  intros db k skip limit text.
  repeat apply conj; destruct db as [[|] vs us]; try reflexivity.
  evaluate. now destruct (find _ vs).
Qed.

(** The user-creation endpoint never changes the vehicle table, and the
    root endpoint and the five vehicle endpoints never change the user
    table. *)
Theorem endpoints_keep_the_other_table :
  forall gph vp cat minutes (req : Request) (db : DB),
    match req with
    | POST_token _ _ => True
    | POST_usuarios _ =>
        veiculos (store (snd (app gph vp cat minutes req db))) = veiculos db
    | _ =>
        usuarios (store (snd (app gph vp cat minutes req db))) = usuarios db
    end.
Proof.
  intros gph vp cat minutes req db.
  destruct req as [u p | b | | | b | k | k st | k]; unfold app.
  - exact I.
  - unfold post_usuarios.
    destruct (schemas.UsuarioCreate_validate b); [reflexivity|].
    destruct db as [[|] vs us]; by_cases.
  - reflexivity.
  - destruct db as [[|] vs us]; reflexivity.
  - unfold post_veiculos.
    destruct (schemas.VeiculoCreate_validate b); [reflexivity|].
    destruct db as [[|] vs us]; unfold criar_veiculo; by_cases.
  - destruct db as [[|] vs us]; by_cases.
  - destruct db as [[|] vs us]; unfold atualizar_status; by_cases.
  - destruct db as [[|] vs us]; by_cases.
Qed.

(** ** Paging *)

Lemma firstn_split {A} (a b : nat) (l : list A) :
  firstn a l ++ firstn b (skipn a l) = firstn (a + b) l.
Proof.
  revert l. induction a as [|a IH]; intros l; [reflexivity|].
  destruct l as [|x l]; simpl.
  - now destruct b.
  - now rewrite IH.
Qed.

Lemma skipn_twice {A} (a b : nat) (l : list A) :
  skipn b (skipn a l) = skipn (a + b) l.
Proof.
  revert l. induction a as [|a IH]; intros l; [reflexivity|].
  destruct l as [|x l]; simpl; [now destruct b | apply IH].
Qed.

Lemma page_of_rows {A} (n m : nat) (l : list A) (x : A) :
  In x (firstn n (skipn m l)) -> In x l.
Proof.
  intros H. rewrite <- (firstn_skipn m l). apply in_or_app. right.
  rewrite <- (firstn_skipn n (skipn m l)). apply in_or_app. now left.
Qed.

Lemma get_veiculos_run (vs : list models.Veiculo.t)
      (us : list models.Usuario.t) (skip limit : Z) :
  0 <= limit ->
  get_veiculos skip limit (open_session (mkDB true vs us))
  = (Ok (firstn (Z.to_nat limit) (skipn (Z.to_nat skip) vs)),
     mkState (mkDB true vs us) [] None [SELECT "veiculos"] []).
Proof.
  intros H. unfold get_veiculos, query_veiculo_page, execute, bind, ret,
    open_session. cbn [store tables_created veiculos log pending
                       lastrowid stdout List.app].
  apply Z.ltb_ge in H. now rewrite H.
Qed.

(** The paged listing of the data-access layer returns the rows after the
    first [skip], at most [limit] of them, every one a stored row; two
    consecutive pages, put end to end, are the one page of their joint
    size. *)
Theorem get_veiculos_pages_tile :
  forall (db : DB) (skip a b : Z),
    tables_created db = true ->
    0 <= skip -> 0 <= a -> 0 <= b ->
    exists first second both,
      fst (get_veiculos skip a (open_session db)) = Ok first
      /\ fst (get_veiculos (skip + a) b (open_session db)) = Ok second
      /\ fst (get_veiculos skip (a + b) (open_session db)) = Ok both
      /\ (first ++ second)%list = both
      /\ (List.length first <= Z.to_nat a)%nat
      /\ (forall v, In v first -> In v (veiculos db)).
Proof.
  intros db skip a b Ht Hs Ha Hb. on_tables db Ht.
  rewrite !get_veiculos_run by lia.
  do 3 eexists. repeat apply conj; try reflexivity.
  - rewrite !Z2Nat.inj_add by lia. rewrite <- skipn_twice. apply firstn_split.
  - apply firstn_le_length.
  - intros v Hv. apply page_of_rows in Hv. exact Hv.
Qed.

(** A page that starts at the first row and is at least as long as the
    table is the whole table, which is what the listing endpoint returns
    without any bound. *)
Theorem get_veiculos_whole_table :
  forall (db : DB) (limit : Z),
    tables_created db = true ->
    Z.of_nat (List.length (veiculos db)) <= limit ->
    fst (get_veiculos 0 limit (open_session db)) = Ok (veiculos db)
    /\ fst (serve (fun vs => JArr (map schemas.Veiculo vs)) listar_veiculos db)
       = mkResponse 200 [] (JArr (map schemas.Veiculo (veiculos db))).
Proof.
  intros db limit Ht Hl. on_tables db Ht.
  rewrite get_veiculos_run by lia. split; [|reflexivity].
  cbn [fst Z.to_nat skipn]. rewrite firstn_all2; [reflexivity | lia].
Qed.

(** ** The data-access layer and the endpoints *)

(** The lookup and the uniqueness check of the engine cannot disagree. *)
Ltac clash :=
  first
    [ congruence
    | match goal with
      | H : existsb ?p ?l = _, F : find ?p ?l = _ |- _ =>
          rewrite existsb_as_find, F in H; discriminate
      end ].

(** For every input, a data-access function and the endpoint of the same
    operation leave the same database behind: status update, deletion and
    creation of a vehicle, and creation of a user with the same hash
    function.  They differ only in how they report. *)
Theorem data_access_and_endpoints_store_alike :
  forall hash (db : DB) (k : Z) (status : string)
         (veiculo : schemas.VeiculoCreate.t)
         (usuario : schemas.UsuarioCreate.t),
    store (snd (update_veiculo_status k status (open_session db)))
    = store (snd (atualizar_status k status (open_session db)))
    /\ store (snd (delete_veiculo k (open_session db)))
       = store (snd (excluir_veiculo k (open_session db)))
    /\ store (snd (create_veiculo veiculo (open_session db)))
       = store (snd (criar_veiculo veiculo (open_session db)))
    /\ store (snd (create_usuario hash usuario (open_session db)))
       = store (snd (criar_usuario hash usuario (open_session db))).
Proof.
  intros hash db k st veiculo usuario. repeat apply conj.
  - destruct db as [[|] vs us]; unfold update_veiculo_status, atualizar_status;
      by_cases.
  - destruct db as [[|] vs us]; by_cases.
  - destruct db as [[|] vs us]; unfold create_veiculo, criar_veiculo;
      (destruct (status_ok (schemas.VeiculoCreate.status veiculo)) eqn:Est;
       [|reflexivity]); evaluate; cbn [List.app]; evaluate;
      rewrite ?Est, ?existsb_as_find; by_cases; clash.
  - destruct db as [[|] vs us]; evaluate; cbn [List.app]; evaluate;
      rewrite ?existsb_as_find; by_cases; clash.
Qed.

(** ** Status updates, one after another *)

Lemma update_absent_key (k : Z) (st : string) (vs : list models.Veiculo.t) :
  find (fun v => models.Veiculo.id v =? k) vs = None ->
  map (fun v => if models.Veiculo.id v =? k
                then models.Veiculo.set_status st v else v) vs = vs.
Proof.
  intros H. rewrite <- (map_id vs) at 2. apply map_ext_in. intros v Hv.
  now rewrite (find_none _ _ H v Hv).
Qed.

(** The database a status update leaves behind, for every input. *)
Lemma atualizar_status_store (db : DB) (k : Z) (st : string) :
  store (snd (serve schemas.Veiculo (atualizar_status k st) db))
  = if tables_created db && status_ok st
    then mkDB true
              (map (fun v => if models.Veiculo.id v =? k
                             then models.Veiculo.set_status st v else v)
                   (veiculos db))
              (usuarios db)
    else db.
Proof.
  destruct db as [[|] vs us]; unfold atualizar_status;
    destruct (status_ok st) eqn:Est; try reflexivity.
  cbn [tables_created veiculos usuarios andb]. evaluate.
  destruct (find (fun v => models.Veiculo.id v =? k) vs) as [v|] eqn:F.
  - apply find_some in F as F'. destruct F' as [_ Hk]. apply Z.eqb_eq in Hk.
    evaluate. cbn [List.app]. evaluate. rewrite Est. evaluate.
    rewrite Hk. now destruct (find _ (map _ vs)).
  - evaluate. now rewrite update_absent_key.
Qed.

(** Of two status updates of the same vehicle in a row, the second with a
    valid status, only the second shows: the database is the one the second
    update alone would have left.  In particular an update repeated
    changes nothing more. *)
Theorem last_status_update_wins :
  forall (db : DB) (k : Z) (st1 st2 : string),
    In st2 status_vocabulary ->
    store (snd (serve schemas.Veiculo (atualizar_status k st2)
                  (store (snd (serve schemas.Veiculo
                                     (atualizar_status k st1) db)))))
    = store (snd (serve schemas.Veiculo (atualizar_status k st2) db)).
Proof.
  intros db k st1 st2 H2. apply status_ok_In in H2.
  rewrite (atualizar_status_store db k st1).
  destruct (tables_created db && status_ok st1) eqn:C1; [|reflexivity].
  apply andb_true_iff in C1 as [Ht _].
  rewrite !atualizar_status_store. cbn [tables_created veiculos usuarios].
  rewrite Ht, H2. cbn [andb]. f_equal.
  rewrite map_map. apply map_ext. intros v.
  now destruct (models.Veiculo.id v =? k) eqn:E; cbn; rewrite ?E.
Qed.

(** ** What validation lets through *)

(** An object that validation produced satisfies the schema: it carries the
    body's brand, model, year and plate, the year is at least 1886, the
    plate has exactly 7 characters, and the status is the body's, or
    DESCONECTADO when the body has none, and in either case of the
    vocabulary. *)
Theorem validated_request_satisfies_schema :
  forall (b : schemas.VeiculoCreateBody.t) (v : schemas.VeiculoCreate.t),
    schemas.VeiculoCreate_validate b = inr v ->
    schemas.VeiculoCreateBody.marca b = Some (schemas.VeiculoCreate.marca v)
    /\ schemas.VeiculoCreateBody.modelo b
       = Some (schemas.VeiculoCreate.modelo v)
    /\ schemas.VeiculoCreateBody.ano b = Some (schemas.VeiculoCreate.ano v)
    /\ 1886 <= schemas.VeiculoCreate.ano v
    /\ schemas.VeiculoCreateBody.placa b = Some (schemas.VeiculoCreate.placa v)
    /\ String.length (schemas.VeiculoCreate.placa v) = 7%nat
    /\ In (schemas.VeiculoCreate.status v) status_vocabulary
    /\ (schemas.VeiculoCreateBody.status b
        = Some (schemas.VeiculoCreate.status v)
        \/ (schemas.VeiculoCreateBody.status b = None
            /\ schemas.VeiculoCreate.status v = "DESCONECTADO")).
Proof.
  intros [ma mo an pl st] v.
  unfold schemas.VeiculoCreate_validate, schemas.VeiculoCreate_errors.
  cbn [schemas.VeiculoCreateBody.marca schemas.VeiculoCreateBody.modelo
       schemas.VeiculoCreateBody.ano schemas.VeiculoCreateBody.placa
       schemas.VeiculoCreateBody.status].
  destruct ma as [ma|], mo as [mo|], an as [an|], pl as [pl|];
    cbn [schemas.missing List.app]; try discriminate.
  - destruct (1886 <=? an) eqn:Ea; [|discriminate].
    destruct (String.length pl =? 7)%nat eqn:Ep; [|discriminate].
    apply Z.leb_le in Ea. apply Nat.eqb_eq in Ep.
    destruct st as [s|].
    + destruct (status_ok s) eqn:Es; [|discriminate].
      cbn [List.app]. intros H. inversion H; subst; cbn.
      apply status_ok_In in Es. repeat split; auto.
    + cbn [List.app]. intros H. inversion H; subst; cbn.
      repeat split; auto.
  - destruct (1886 <=? an); discriminate.
Qed.

(** The answer of the vehicle-creation endpoint on existing tables, for
    every body: the validation report, or 400 for a stored plate, or 200
    with the new row.  The handler's own status check never decides: the
    answer "Status inválido" cannot come out of this endpoint. *)
Theorem post_veiculos_answer :
  forall (db : DB) (b : schemas.VeiculoCreateBody.t),
    tables_created db = true ->
    fst (post_veiculos b db)
    = match schemas.VeiculoCreate_validate b with
      | inl errs => unprocessable errs
      | inr v =>
          if existsb (fun x => models.Veiculo.placa x
                               =? schemas.VeiculoCreate.placa v)%string
                     (veiculos db)
          then mkResponse 400 [] (JObj [("detail", JStr "Placa já registrada.")])
          else mkResponse 200 []
                 (schemas.Veiculo
                    (veiculo_row
                       (next_id (map models.Veiculo.id (veiculos db))) v))
      end
    /\ fst (post_veiculos b db) <> invalid_status.
Proof.
  intros db b Ht. on_tables db Ht.
  assert (E : fst (post_veiculos b (mkDB true vs us))
              = match schemas.VeiculoCreate_validate b with
                | inl errs => unprocessable errs
                | inr v =>
                    if existsb (fun x => models.Veiculo.placa x
                                         =? schemas.VeiculoCreate.placa v)%string
                               vs
                    then mkResponse 400 []
                           (JObj [("detail", JStr "Placa já registrada.")])
                    else mkResponse 200 []
                           (schemas.Veiculo
                              (veiculo_row
                                 (next_id (map models.Veiculo.id vs)) v))
                end).
  { unfold post_veiculos.
    destruct (schemas.VeiculoCreate_validate b) as [errs|v] eqn:V;
      [reflexivity|].
    destruct (validated_request_satisfies_schema b v V)
      as [_ [_ [_ [_ [_ [_ [Hst _]]]]]]].
    apply status_ok_In in Hst.
    destruct (existsb _ vs) eqn:Ex.
    - unfold criar_veiculo. rewrite Hst. evaluate. cbn [List.app]. evaluate.
      rewrite Hst, Ex. reflexivity.
    - now rewrite (criar_veiculo_run vs us v Hst Ex). }
  split; [exact E|]. rewrite E.
  destruct (schemas.VeiculoCreate_validate b) as [errs|v]; [discriminate|].
  destruct (existsb _ vs); discriminate.
Qed.

(** ** Creating users *)

(** A user-creation request on a username that is not stored is answered
    200 with the username and a fresh id; the table gains one row, which
    holds the username and the hash of the password, and a lookup by the
    username then finds that row. *)
Theorem created_user_is_retrievable :
  forall gph (db : DB) (u p : string),
    tables_created db = true ->
    (forall x, In x (usuarios db) -> models.Usuario.username x <> u) ->
    let created :=
      post_usuarios gph (schemas.UsuarioCreateBody.Build (Some u) (Some p))
                    db in
    let new :=
      models.Usuario.Build (next_id (map models.Usuario.id (usuarios db)))
                           u (gph p) in
    fst created = mkResponse 200 [] (schemas.Usuario new)
    /\ store (snd created) = mkDB true (veiculos db) (usuarios db ++ [new])
    /\ fst (get_usuario_by_username u (open_session (store (snd created))))
       = Ok (Some new).
Proof.
  intros gph db u p Ht Hfree created new. subst created new.
  on_tables db Ht.
  assert (Ex : existsb (fun x => models.Usuario.username x =? u)%string us
               = false).
  { rewrite existsb_as_find, find_absent; [reflexivity|].
    intros x Hx. apply String.eqb_neq. now apply Hfree. }
  assert (E : post_usuarios gph
                (schemas.UsuarioCreateBody.Build (Some u) (Some p))
                (mkDB true vs us)
              = (mkResponse 200 []
                   (schemas.Usuario
                      (models.Usuario.Build
                         (next_id (map models.Usuario.id us)) u (gph p))),
                 mkState
                   (mkDB true vs
                      (us ++ [models.Usuario.Build
                                (next_id (map models.Usuario.id us)) u (gph p)]))
                   [] (Some (next_id (map models.Usuario.id us)))
                   [INSERT "usuarios"; COMMIT; SELECT "usuarios"] [])).
  { evaluate. cbn [List.app]. evaluate.
    cbn [schemas.UsuarioCreate.username schemas.UsuarioCreate.password].
    rewrite Ex. evaluate.
    cbn [schemas.UsuarioCreate.username schemas.UsuarioCreate.password].
    rewrite find_inserted_usuario. reflexivity. }
  rewrite E. cbn [fst snd store]. repeat split.
  evaluate. rewrite find_appended; [reflexivity | |].
  - intros y Hy. apply String.eqb_neq. now apply Hfree.
  - apply String.eqb_refl.
Qed.

(** ** More of the operator CLI *)

Lemma truthy_given (s : string) : s <> "" -> truthy (Some s) = Some s.
Proof.
  intros H. unfold truthy. destruct (s =? "")%string eqn:E; [|reflexivity].
  apply String.eqb_eq in E. contradiction.
Qed.

Lemma for_each_print {A} (line : A -> string) (xs : list A) :
  forall s,
    for_each xs (fun x => print (line x)) s
    = (Ok tt,
       mkState (store s) (pending s) (lastrowid s) (log s)
               (stdout s ++ map line xs)).
Proof.
  induction xs as [|x xs IH]; intros s; simpl.
  - unfold ret. rewrite app_nil_r. now destruct s.
  - unfold bind, print at 1. rewrite IH. cbn [store pending lastrowid log stdout].
    now rewrite <- app_assoc.
Qed.

(** The list action prints one line per stored user, in table order, with
    id and username, and changes nothing. *)
Theorem cli_list_prints_every_user :
  forall pch text (db : DB),
    tables_created db = true ->
    main pch text (mkArgs action_list None None) db
    = (Ok tt,
       mkState db [] None [SELECT "usuarios"]
               (map listing_line (usuarios db))).
Proof.
  intros pch text db Ht. on_tables db Ht.
  unfold main, try_except, main_action. cbn [action].
  unfold query_usuario_all, bind at 1. unfold bind at 1, execute, ret.
  cbn [open_session store tables_created usuarios log pending lastrowid
       stdout List.app].
  change (fun usuario : models.Usuario.t =>
            print ("ID: " ++ string_of_Z (models.Usuario.id usuario)
                   ++ ", Username: " ++ models.Usuario.username usuario)%string)
    with (fun usuario => print (listing_line usuario)).
  rewrite for_each_print. reflexivity.
Qed.

(** The create action with a username and a password: when the username is
    not stored, the user is added under a fresh id with the hash of the
    password and the success line is printed; when it is stored, the "já
    existe" line is printed after one read and nothing is inserted. *)
Theorem cli_create_adds_or_reports :
  forall pch text (db : DB) (u p : string),
    tables_created db = true ->
    u <> "" -> p <> "" ->
    let args := mkArgs action_create (Some u) (Some p) in
    ((forall x, In x (usuarios db) -> models.Usuario.username x <> u) ->
     stdout (snd (main pch text args db))
     = [("Usuário '" ++ u ++ "' criado com sucesso.")%string]
     /\ store (snd (main pch text args db))
        = mkDB true (veiculos db)
               (usuarios db
                ++ [models.Usuario.Build
                      (next_id (map models.Usuario.id (usuarios db)))
                      u (pch p)]))
    /\ ((exists x, In x (usuarios db) /\ models.Usuario.username x = u) ->
        main pch text args db
        = (Ok tt,
           mkState db [] None [SELECT "usuarios"]
                   [("Usuário '" ++ u ++ "' já existe.")%string])).
Proof.
  intros pch text db u p Ht Hu Hp args. subst args. on_tables db Ht.
  unfold main, try_except, main_action. cbn [action username password].
  rewrite (truthy_given u Hu), (truthy_given p Hp). split.
  - intros Hfree.
    assert (F : find (fun x => models.Usuario.username x =? u)%string us = None).
    { apply find_absent. intros x Hx. apply String.eqb_neq. now apply Hfree. }
    evaluate. rewrite F. evaluate.
    cbn [schemas.UsuarioCreate.username schemas.UsuarioCreate.password].
    rewrite F. evaluate. cbn [List.app]. evaluate.
    cbn [schemas.UsuarioCreate.username schemas.UsuarioCreate.password].
    rewrite existsb_as_find, F. evaluate.
    cbn [schemas.UsuarioCreate.username schemas.UsuarioCreate.password].
    rewrite find_inserted_usuario. split; reflexivity.
  - intros [x [Hx Hxu]].
    destruct (find (fun y => models.Usuario.username y =? u)%string us)
      as [w|] eqn:F.
    + evaluate. rewrite F. reflexivity.
    + apply (find_none _ _ F) in Hx. rewrite Hxu in Hx.
      now rewrite String.eqb_refl in Hx.
Qed.

Lemma find_usuario_by_id (usr : models.Usuario.t) (us : list models.Usuario.t) :
  In usr us ->
  exists w,
    find (fun x => models.Usuario.id x =? models.Usuario.id usr) us = Some w
    /\ models.Usuario.id w = models.Usuario.id usr.
Proof.
  intros Hin.
  destruct (find (fun x => models.Usuario.id x =? models.Usuario.id usr) us)
    as [w|] eqn:E.
  - exists w. split; [reflexivity|]. apply find_some in E as [_ E].
    now apply Z.eqb_eq.
  - apply (find_none _ _ E) in Hin. now rewrite Z.eqb_refl in Hin.
Qed.

(** The delete action with a username: when no user has it, the "não
    encontrado" line is printed after one read and nothing changes; when a
    user has it, the rows with that user's id are deleted, the user is gone,
    the vehicle table is untouched and the success line is printed. *)
Theorem cli_delete_removes_or_reports :
  forall pch text (db : DB) (u : string) (p : option string),
    tables_created db = true ->
    u <> "" ->
    let args := mkArgs action_delete (Some u) p in
    ((forall x, In x (usuarios db) -> models.Usuario.username x <> u) ->
     main pch text args db
     = (Ok tt,
        mkState db [] None [SELECT "usuarios"]
                [("Usuário '" ++ u ++ "' não encontrado.")%string]))
    /\ (forall usr,
           usernames_unique db ->
           In usr (usuarios db) ->
           models.Usuario.username usr = u ->
           stdout (snd (main pch text args db))
           = [("Usuário '" ++ u ++ "' excluído com sucesso.")%string]
           /\ store (snd (main pch text args db))
              = mkDB true (veiculos db)
                     (filter (fun x => negb (models.Usuario.id x
                                             =? models.Usuario.id usr))
                             (usuarios db))
           /\ ~ In usr (usuarios (store (snd (main pch text args db))))).
Proof.
  intros pch text db u p Ht Hu args. subst args. on_tables db Ht.
  unfold main, try_except, main_action. cbn [action username password].
  rewrite (truthy_given u Hu). split.
  - intros Hfree.
    assert (F : find (fun x => models.Usuario.username x =? u)%string us = None).
    { apply find_absent. intros x Hx. apply String.eqb_neq. now apply Hfree. }
    evaluate. rewrite F. reflexivity.
  - intros usr Huniq Hin Hname. unfold usernames_unique in Huniq.
    cbn [usuarios] in Huniq.
    assert (F : find (fun x => models.Usuario.username x =? u)%string us
                = Some usr).
    { destruct (find (fun x => models.Usuario.username x =? u)%string us)
        as [w|] eqn:E.
      - apply find_some in E as [Hw Ew]. apply String.eqb_eq in Ew.
        f_equal. apply (distinct_column models.Usuario.username us Huniq);
          [assumption | assumption | congruence].
      - apply (find_none _ _ E) in Hin. rewrite Hname in Hin.
        now rewrite String.eqb_refl in Hin. }
    destruct (find_usuario_by_id usr us Hin) as [w [Fw Hw]].
    assert (E : store (snd (let (r, s) :=
                    match
                      (usuario <- get_usuario_by_username u;;
                       match usuario with
                       | Some usr0 =>
                           delete_usuario (models.Usuario.id usr0);;;
                           print ("Usuário '" ++ u
                                  ++ "' excluído com sucesso.")%string
                       | None => print ("Usuário '" ++ u
                                        ++ "' não encontrado.")%string
                       end) (open_session (mkDB true vs us))
                    with
                    | (Raise e, s') =>
                        print ("Ocorreu um erro: " ++ str text e)%string s'
                    | other => other
                    end in (r, close s)))
                = mkDB true vs
                    (filter (fun x => negb (models.Usuario.id x
                                            =? models.Usuario.id usr)) us)).
    { evaluate. rewrite F. evaluate. rewrite Fw. evaluate. cbn [List.app].
      evaluate. now rewrite Hw. }
    repeat apply conj.
    + evaluate. rewrite F. evaluate. rewrite Fw. evaluate. cbn [List.app].
      evaluate. reflexivity.
    + exact E.
    + rewrite E. cbn [usuarios]. intros H. apply filter_In in H as [_ H].
      now rewrite Z.eqb_refl in H.
Qed.

(** No CLI run, whatever its arguments and whatever the database, changes
    the vehicle table. *)
Theorem cli_never_changes_vehicles :
  forall pch text (args : Args) (db : DB),
    veiculos (store (snd (main pch text args db))) = veiculos db.
Proof.
  intros pch text [a u p] db. unfold main, try_except, main_action.
  cbn [action username password].
  destruct a.
  - destruct (truthy u) as [u'|], (truthy p) as [p'|]; try reflexivity.
    destruct db as [[|] vs us]; [|reflexivity].
    evaluate.
    destruct (find (fun x => models.Usuario.username x =? u')%string us)
      as [w|] eqn:F; [reflexivity|].
    evaluate.
    cbn [schemas.UsuarioCreate.username schemas.UsuarioCreate.password].
    rewrite F. evaluate. cbn [List.app]. evaluate.
    cbn [schemas.UsuarioCreate.username schemas.UsuarioCreate.password].
    rewrite existsb_as_find, F. evaluate.
    rewrite find_inserted_usuario. reflexivity.
  - destruct db as [[|] vs us]; [|reflexivity].
    unfold query_usuario_all, bind at 1. unfold bind at 1, execute, ret.
    cbn [open_session store tables_created usuarios log pending lastrowid
         stdout List.app].
    change (fun usuario : models.Usuario.t =>
              print ("ID: " ++ string_of_Z (models.Usuario.id usuario)
                     ++ ", Username: "
                     ++ models.Usuario.username usuario)%string)
      with (fun usuario => print (listing_line usuario)).
    rewrite for_each_print. reflexivity.
  - destruct (truthy u) as [u'|]; [|reflexivity].
    destruct db as [[|] vs us]; by_cases.
Qed.

(** ** How the data-access layer reports absence *)

(** For an id under which nothing is stored, the vehicle functions of the
    data-access layer return nothing instead of raising: the lookup, the
    status update with a valid status, and the deletion; the user deletion
    raises a [ValueError] that names the id.  None of them changes the
    database. *)
Theorem data_access_reports_absence :
  forall (db : DB) (k : Z) (status : string),
    tables_created db = true ->
    In status status_vocabulary ->
    ((forall v, In v (veiculos db) -> models.Veiculo.id v <> k) ->
     get_veiculo k (open_session db)
     = (Ok None, mkState db [] None [SELECT "veiculos"] [])
     /\ update_veiculo_status k status (open_session db)
        = (Ok None, mkState db [] None [SELECT "veiculos"] [])
     /\ delete_veiculo k (open_session db)
        = (Ok None, mkState db [] None [SELECT "veiculos"] []))
    /\ ((forall u, In u (usuarios db) -> models.Usuario.id u <> k) ->
        delete_usuario k (open_session db)
        = (Raise (ValueError ("Usuário com ID " ++ string_of_Z k
                              ++ " não encontrado.")%string),
           mkState db [] None [SELECT "usuarios"] [])).
Proof.
  intros db k st Ht Hst. apply status_ok_In in Hst. on_tables db Ht. split.
  - intros Habs. apply find_veiculo_absent in Habs.
    unfold update_veiculo_status. rewrite Hst.
    repeat split; evaluate; rewrite Habs; reflexivity.
  - intros Habs.
    assert (F : find (fun u => models.Usuario.id u =? k) us = None).
    { apply find_absent. intros u Hu. apply Z.eqb_neq. now apply Habs. }
    evaluate. rewrite F. reflexivity.
Qed.

(** * The further properties at concrete inputs *)

Lemma statuses_valid_along_history_witness :
  statuses_valid empty_db
  /\ statuses_valid
       (run toy_hash toy_hash toy_verify toy_token 30 toy_text empty_db
            sample_history).
Proof.
  assert (H0 : statuses_valid empty_db) by constructor.
  split; [exact H0|].
  apply (statuses_valid_along_history toy_hash toy_hash toy_verify toy_token
           30 toy_text empty_db sample_history H0).
Defined.

Lemma usernames_unique_along_history_witness :
  usernames_unique empty_db
  /\ usernames_unique
       (run toy_hash toy_hash toy_verify toy_token 30 toy_text empty_db
            user_history).
Proof.
  assert (H0 : usernames_unique empty_db) by constructor.
  split; [exact H0|].
  apply (usernames_unique_along_history toy_hash toy_hash toy_verify toy_token
           30 toy_text empty_db user_history H0).
Defined.

Lemma veiculo_ids_unique_along_history_witness :
  veiculo_ids_unique empty_db
  /\ veiculo_ids_unique
       (run toy_hash toy_hash toy_verify toy_token 30 toy_text empty_db
            sample_history).
Proof.
  assert (H0 : veiculo_ids_unique empty_db) by constructor.
  split; [exact H0|].
  apply (veiculo_ids_unique_along_history toy_hash toy_hash toy_verify
           toy_token 30 toy_text empty_db sample_history H0).
Defined.

Lemma ka_plate_is_free :
  forall v, In v (veiculos fleet_db) ->
            models.Veiculo.placa v <> schemas.VeiculoCreate.placa ka_request.
Proof. intros v [<- | [<- | []]]; discriminate. Qed.

Lemma fleet_ids_unique : veiculo_ids_unique fleet_db.
Proof. repeat constructor; simpl; intuition discriminate. Qed.

Lemma fleet_plates_unique : plates_unique fleet_db.
Proof. repeat constructor; simpl; intuition discriminate. Qed.

Lemma criar_veiculo_stores_the_request_witness :
  fst (serve schemas.Veiculo (criar_veiculo ka_request) fleet_db)
  = mkResponse 200 [] (schemas.Veiculo (veiculo_row 3 ka_request))
  /\ store (snd (serve schemas.Veiculo (criar_veiculo ka_request) fleet_db))
     = mkDB true [uno; gol; veiculo_row 3 ka_request] [bob].
Proof.
  destruct (criar_veiculo_stores_the_request fleet_db ka_request)
    as [H1 [H2 _]].
  - reflexivity.
  - right. left. reflexivity.
  - exact ka_plate_is_free.
  - split; [exact H1 | exact H2].
Defined.

Lemma created_vehicle_is_retrievable_witness :
  fst (serve schemas.Veiculo (obter_veiculo 3)
         (store (snd (serve schemas.Veiculo (criar_veiculo ka_request)
                            fleet_db))))
  = fst (serve schemas.Veiculo (criar_veiculo ka_request) fleet_db).
Proof.
  apply (created_vehicle_is_retrievable fleet_db ka_request).
  - reflexivity.
  - right. left. reflexivity.
  - exact ka_plate_is_free.
Defined.

Lemma obter_veiculo_returns_the_row_witness :
  serve schemas.Veiculo (obter_veiculo 2) fleet_db
  = (mkResponse 200 [] (schemas.Veiculo gol),
     mkState fleet_db [] None [SELECT "veiculos"] []).
Proof.
  apply (obter_veiculo_returns_the_row fleet_db gol).
  - reflexivity.
  - exact fleet_ids_unique.
  - right. left. reflexivity.
Defined.

Lemma excluir_veiculo_removes_the_row_witness :
  fst (serve (fun j => j) (excluir_veiculo 2) fleet_db) = deleted
  /\ veiculos (store (snd (serve (fun j => j) (excluir_veiculo 2) fleet_db)))
     = [uno].
Proof.
  destruct (excluir_veiculo_removes_the_row fleet_db gol) as [H1 [H2 _]].
  - reflexivity.
  - exact fleet_ids_unique.
  - right. left. reflexivity.
  - split; [exact H1 | exact H2].
Defined.

Lemma plate_is_reusable_after_delete_witness :
  status_code (fst (serve schemas.Veiculo (criar_veiculo uno_request) fleet_db))
  = 400
  /\ status_code
       (fst (serve schemas.Veiculo (criar_veiculo uno_request)
               (store (snd (serve (fun j => j) (excluir_veiculo 1) fleet_db)))))
     = 200.
Proof.
  apply (plate_is_reusable_after_delete fleet_db uno uno_request).
  - reflexivity.
  - exact fleet_plates_unique.
  - left. reflexivity.
  - reflexivity.
  - left. reflexivity.
Defined.

Lemma get_veiculos_pages_tile_witness :
  exists first second both,
    fst (get_veiculos 0 1 (open_session fleet_db)) = Ok first
    /\ fst (get_veiculos (0 + 1) 1 (open_session fleet_db)) = Ok second
    /\ fst (get_veiculos 0 (1 + 1) (open_session fleet_db)) = Ok both
    /\ (first ++ second)%list = both
    /\ (List.length first <= Z.to_nat 1)%nat
    /\ (forall v, In v first -> In v (veiculos fleet_db)).
Proof.
  apply (get_veiculos_pages_tile fleet_db 0 1 1); [reflexivity | lia | lia | lia].
Defined.

Lemma get_veiculos_whole_table_witness :
  fst (get_veiculos 0 10 (open_session fleet_db)) = Ok [uno; gol].
Proof.
  apply (get_veiculos_whole_table fleet_db 10); [reflexivity | simpl; lia].
Defined.

Lemma last_status_update_wins_witness :
  store (snd (serve schemas.Veiculo (atualizar_status 1 "CONNECTADO")
                (store (snd (serve schemas.Veiculo
                                   (atualizar_status 1 "DESCONECTADO")
                                   fleet_db)))))
  = fleet_db.
Proof.
  rewrite (last_status_update_wins fleet_db 1 "DESCONECTADO" "CONNECTADO").
  - reflexivity.
  - left. reflexivity.
Defined.

Lemma validated_request_satisfies_schema_witness :
  1886 <= schemas.VeiculoCreate.ano uno_request
  /\ String.length (schemas.VeiculoCreate.placa uno_request) = 7%nat
  /\ In (schemas.VeiculoCreate.status uno_request) status_vocabulary.
Proof.
  destruct (validated_request_satisfies_schema uno_body uno_request)
    as [_ [_ [_ [H1 [_ [H2 [H3 _]]]]]]].
  - reflexivity.
  - split; [exact H1 | split; [exact H2 | exact H3]].
Defined.

Lemma post_veiculos_answer_witness :
  fst (post_veiculos uno_body fleet_db)
  = mkResponse 400 [] (JObj [("detail", JStr "Placa já registrada.")]).
Proof.
  destruct (post_veiculos_answer fleet_db uno_body) as [H _].
  - reflexivity.
  - rewrite H. reflexivity.
Defined.

Lemma created_user_is_retrievable_witness :
  fst (get_usuario_by_username "alice"
         (open_session
            (store (snd (post_usuarios toy_hash
                           (schemas.UsuarioCreateBody.Build (Some "alice")
                                                            (Some "pw"))
                           fleet_db)))))
  = Ok (Some (models.Usuario.Build 2 "alice" (toy_hash "pw"))).
Proof.
  apply (created_user_is_retrievable toy_hash fleet_db "alice" "pw").
  - reflexivity.
  - intros x [<- | []]. discriminate.
Defined.

Lemma cli_list_prints_every_user_witness :
  main toy_hash toy_text (mkArgs action_list None None) fleet_db
  = (Ok tt,
     mkState fleet_db [] None [SELECT "usuarios"] ["ID: 1, Username: bob"]).
Proof.
  apply (cli_list_prints_every_user toy_hash toy_text fleet_db). reflexivity.
Defined.

Lemma cli_create_adds_or_reports_witness :
  usuarios (store (snd (main toy_hash toy_text
                          (mkArgs action_create (Some "alice") (Some "pw"))
                          fleet_db)))
  = [bob; models.Usuario.Build 2 "alice" (toy_hash "pw")]
  /\ main toy_hash toy_text (mkArgs action_create (Some "bob") (Some "pw"))
          fleet_db
     = (Ok tt,
        mkState fleet_db [] None [SELECT "usuarios"]
                ["Usuário 'bob' já existe."]).
Proof.
  split.
  - destruct (cli_create_adds_or_reports toy_hash toy_text fleet_db
                "alice" "pw") as [Hnew _]; try discriminate; [reflexivity|].
    destruct Hnew as [_ Hs].
    + intros x [<- | []]. discriminate.
    + rewrite Hs. reflexivity.
  - destruct (cli_create_adds_or_reports toy_hash toy_text fleet_db
                "bob" "pw") as [_ Hold]; try discriminate; [reflexivity|].
    apply Hold. exists bob. split; [left|]; reflexivity.
Defined.

Lemma cli_delete_removes_or_reports_witness :
  usuarios (store (snd (main toy_hash toy_text
                          (mkArgs action_delete (Some "bob") None) fleet_db)))
  = []
  /\ main toy_hash toy_text (mkArgs action_delete (Some "alice") None) fleet_db
     = (Ok tt,
        mkState fleet_db [] None [SELECT "usuarios"]
                ["Usuário 'alice' não encontrado."]).
Proof.
  split.
  - destruct (cli_delete_removes_or_reports toy_hash toy_text fleet_db
                "bob" None) as [_ Hdel]; try discriminate; [reflexivity|].
    destruct (Hdel bob) as [_ [Hs _]].
    + repeat constructor. intros [].
    + left. reflexivity.
    + reflexivity.
    + rewrite Hs. reflexivity.
  - destruct (cli_delete_removes_or_reports toy_hash toy_text fleet_db
                "alice" None) as [Habs _]; try discriminate; [reflexivity|].
    apply Habs. intros x [<- | []]. discriminate.
Defined.

Lemma data_access_reports_absence_witness :
  get_veiculo 999 (open_session fleet_db)
  = (Ok None, mkState fleet_db [] None [SELECT "veiculos"] [])
  /\ delete_usuario 999 (open_session fleet_db)
     = (Raise (ValueError "Usuário com ID 999 não encontrado."),
        mkState fleet_db [] None [SELECT "usuarios"] []).
Proof.
  destruct (data_access_reports_absence fleet_db 999 "CONNECTADO")
    as [Hv Hu].
  - reflexivity.
  - left. reflexivity.
  - split.
    + apply Hv. intros v [<- | [<- | []]]; discriminate.
    + apply Hu. intros u [<- | []]. discriminate.
Defined.
